(** * maptype: the type-classification and fold engine of [src/index.ts]

    A shallow embedding of [processType], [processObjectType],
    [handleDeclaration], [visit] and [processTypes], and the properties of
    the specification that concern them. *)

From stdpp Require Import base list strings.
From Stdlib Require Import NArith DecimalString Sorted FunctionalExtensionality.

Local Open Scope string_scope.
Local Open Scope list_scope.
Set Warnings "-register-all".

(** ** Effects

    The engine and the handlers it calls are ordinary JavaScript functions:
    they return a value or throw, and they may write to the console.  A
    computation is therefore a log of events together with an outcome. *)

Inductive JsError :=
| Error (message : string)   (* [throw Error(message)] *)
| TypeError                  (* a member of [undefined] is read *)
| RangeError.                (* the call stack of the host is exhausted *)

Inductive outcome (A : Type) :=
| Return (a : A)
| Throw (e : JsError).
Arguments Return {A} a.
Arguments Throw {A} e.

(** A type handle, a property symbol and a syntax location are references
    into the resolution context; the engine never looks inside them. *)
Definition Ty := positive.
Definition Symbol := positive.
Definition Loc := positive.

Inductive Event :=
| ConsoleWarn (message : string)   (* [console.warn(message)] *)
| Classify (type : Ty).            (* [processType] is entered on [type] *)

Record M (A : Type) := Run { log : list Event; result : outcome A }.
Arguments Run {A} log result.
Arguments log {A} _.
Arguments result {A} _.

#[global] Instance M_ret : MRet M := λ A a, Run [] (Return a).

#[global] Instance M_bind : MBind M := λ A B f m,
  match result m with
  | Return a => Run (log m ++ log (f a)) (result (f a))
  | Throw e => Run (log m) (Throw e)
  end.

Definition throw {A} (e : JsError) : M A := Run [] (Throw e).

Definition tell (ev : Event) : M unit := Run [ev] (Return tt).

(** [for (const x of l) s = f(x, s)], threading the exceptions. *)
Section FoldM.
Context {A S : Type} (f : A → S → M S).

Fixpoint foldM (l : list A) (s : S) : M S :=
  match l with
  | [] => mret s
  | x :: l' => s' ← f x s; foldM l' s'
  end.
End FoldM.

(** ** The resolution context

    Everything the engine asks about a handle.  The first group are members
    of [ts.Type], the second of [ts.Symbol], the third methods of
    [ts.TypeChecker]; the last group are the tests imported from [./type],
    whose sources are not at hand: each is taken as the answer it gives on
    a handle.  A member that the code reads behind a non-null assertion
    ([!]) or a cast is an [option], [None] standing for [undefined].
    [target] is the generic type that a type reference instantiates; the
    engine does not read it, and it is there because a tuple declares its
    rest element on its target: [hasRestElement] is the member of that name
    of the handle itself, which is what the engine reads. *)
Record Checker := {
  flags : Ty → N;
  isUnion : Ty → bool;
  isIntersection : Ty → bool;
  types : Ty → list Ty;
  aliasTypeArguments : Ty → option (list Ty);
  hasRestElement : Ty → bool;
  target : Ty → option Ty;
  typeArguments : Ty → option (list Ty);
  getNumberIndexType : Ty → option Ty;
  getStringIndexType : Ty → option Ty;

  name : Symbol → string;
  (* [valueDeclaration.questionToken], truthy or not; [None] when the
     symbol has no [valueDeclaration], and reading the token throws *)
  questionToken : Symbol → option bool;

  typeToString : Ty → string;
  getPropertiesOfType : Ty → list Symbol;
  getTypeOfSymbolAtLocation : Symbol → Ty;   (* at its [valueDeclaration] *)
  getSymbolAtLocation : Loc → option Symbol;
  getTypeAtLocation : Loc → Ty;

  isLiteralType : Ty → bool;
  isPrimitiveType : Ty → bool;
  isBasicObjectType : Ty → bool;
  isRecordType : Ty → bool;
  isTupleType : Ty → bool;
  isArrayType : Ty → bool;
  isStringIndexedObjectType : Ty → bool;
  isNumberIndexedType : Ty → bool;
  isFunctionType : Ty → bool;
  isObjectType : Ty → bool;
  isVoid : Ty → bool;
  isAnyOrUnknown : Ty → bool
}.

(** ** The handler set *)

(** [boolean | number | string] *)
Inductive LiteralValue :=
| LitBoolean (b : bool)
| LitNumber (n : Z)
| LitString (s : string).

(** [type ObjectKeyType = string | number | symbol] *)
Inductive ObjectKeyType :=
| KeyString (s : string)
| KeyNumber (n : Z)
| KeySymbol (description : string).

(** [() => R] *)
Definition Thunk (R : Type) : Type := unit → M R.

Record ObjectPayload (R : Type) := {
  properties : list (ObjectKeyType * Thunk R);
  optionalProperties : list (ObjectKeyType * Thunk R)
}.
Arguments properties {R} _.
Arguments optionalProperties {R} _.

(** [null] is [None]. *)
Record FunctionPayload (R : Type) := {
  args : list (Thunk R);
  return_ : option (Thunk R)
}.
Arguments args {R} _.
Arguments return_ {R} _.

Record RecordPayload (R : Type) := {
  key : Thunk R;
  value : Thunk R
}.
Arguments key {R} _.
Arguments value {R} _.

Module TypeMap.
Record t (R : Type) := {
  literal : LiteralValue → M R;
  void : unit → M R;
  string : unit → M R;
  number : unit → M R;
  boolean : unit → M R;
  null : unit → M R;
  undefined : unit → M R;
  any : unit → M R;
  unknown : unit → M R;
  emptyObject : unit → M R;
  stringIndexObject : Thunk R → M R;
  numberIndexObject : Thunk R → M R;
  object : ObjectPayload R → M R;
  function : FunctionPayload R → M R;
  record : RecordPayload R → M R;
  array : Thunk R → M R;
  union : list (Thunk R) → M R;
  intersection : list (Thunk R) → M R;
  tuple : list (Thunk R) → M R
}.
Arguments literal {R} _.
Arguments void {R} _.
Arguments string {R} _.
Arguments number {R} _.
Arguments boolean {R} _.
Arguments null {R} _.
Arguments undefined {R} _.
Arguments any {R} _.
Arguments unknown {R} _.
Arguments emptyObject {R} _.
Arguments stringIndexObject {R} _.
Arguments numberIndexObject {R} _.
Arguments object {R} _.
Arguments function {R} _.
Arguments record {R} _.
Arguments array {R} _.
Arguments union {R} _.
Arguments intersection {R} _.
Arguments tuple {R} _.
End TypeMap.
Abbreviation TypeMap := TypeMap.t.

(** ** Flag decomposition *)

(** Modelled from the spec: the loop of [extractFlags] ([./flags], whose
    source is not at hand) over the bits of a positive mask, from the lowest
    to the highest; [bit] is the value of the bit at hand and [lower] the
    values already found. *)
Fixpoint extractBits (p : positive) (bit : N) (lower : list N) : list N :=
  match p with
  | xH => bit :: lower
  | xO p' => extractBits p' (2 * bit) lower
  | xI p' => extractBits p' (2 * bit) (bit :: lower)
  end.

(** Modelled from the spec: [extractFlags] of [./flags], whose source is not
    at hand.  It decomposes a mask into its single-bit values, from the
    highest bit to the lowest, and [extractFlags(0) = []]; the repository's
    test expects [extractFlags(100) = [64, 32, 4]]. *)
Definition extractFlags (mask : N) : list N :=
  match mask with
  | N0 => []
  | Npos p => extractBits p 1 []
  end.

(** [String(n)] for a non-negative integer. *)
Definition numberToString (n : N) : string :=
  NilZero.string_of_uint (N.to_uint n).

(** [Array.prototype.toString]: the elements joined by commas. *)
Definition arrayToString (l : list N) : string :=
  String.concat "," (map numberToString l).

(** ** The engine *)

Definition rest_warning : string :=
  "Tuple rest elements are not currently supported".

Section Engine.
Context {R : Type} (typemap : TypeMap R) (checker : Checker).

(** What [processType] does when it is handed [undefined]: the first thing
    it does with its argument is to pass it to the tests of [./type], so the
    answer lies in sources that are not at hand.  Every statement below
    holds whatever it is. *)
Context (processUndefined : M R).

(** The calls of [processType] from inside a thunk go through [recur]; the
    argument of such a call may be [undefined]. *)
Definition processValue (recur : Ty → M R) (type : option Ty) : M R :=
  match type with
  | Some t => recur t
  | None => processUndefined
  end.

Definition processProperty (recur : Ty → M R) (s : Symbol) : M R :=
  recur (getTypeOfSymbolAtLocation checker s).

(** [properties.filter((p) => keep(p.valueDeclaration.questionToken))]:
    the callback throws on the first property without a [valueDeclaration]. *)
Fixpoint filterByToken (keep : bool → bool) (properties : list Symbol)
  : M (list Symbol) :=
  match properties with
  | [] => mret []
  | p :: rest =>
      match questionToken checker p with
      | None => throw TypeError
      | Some token =>
          kept ← filterByToken keep rest;
          mret (if keep token then p :: kept else kept)
      end
  end.

Definition processObjectType (recur : Ty → M R) (type : Ty) : M R :=
  let properties := getPropertiesOfType checker type in
  let propertyProcessor := processProperty recur in
  requiredProperties ← filterByToken negb properties;
  optionalProperties ← filterByToken id properties;
  TypeMap.object typemap {|
    properties :=
      map (λ p, (KeyString (name checker p), λ _ : unit, propertyProcessor p))
          requiredProperties;
    optionalProperties :=
      map (λ p, (KeyString (name checker p), λ _ : unit, propertyProcessor p))
          optionalProperties
  |}.

(** The body of [processType], with its recursive calls abstracted. *)
Definition processTypeBody (recur : Ty → M R) (type : Ty) : M R :=
  if isLiteralType checker type then
    TypeMap.literal typemap (LitString (typeToString checker type))
  else if isPrimitiveType checker type then
    let text := typeToString checker type in
    if String.eqb text "string" then TypeMap.string typemap ()
    else if String.eqb text "number" then TypeMap.number typemap ()
    else if String.eqb text "boolean" then TypeMap.boolean typemap ()
    else if String.eqb text "null" then TypeMap.null typemap ()
    else if String.eqb text "undefined" then TypeMap.undefined typemap ()
    else throw (Error "Unknown primitive type")
  else if isBasicObjectType checker type then
    TypeMap.emptyObject typemap ()
  else if isRecordType checker type then
    match aliasTypeArguments checker type with
    | None => throw TypeError
    | Some targs =>
        TypeMap.record typemap {|
          key := λ _, processValue recur (targs !! 0%nat);
          value := λ _, processValue recur (targs !! 1%nat)
        |}
    end
  else if isUnion checker type then
    TypeMap.union typemap (map (λ t (_ : unit), recur t) (types checker type))
  else if isIntersection checker type then
    TypeMap.intersection typemap
      (map (λ t (_ : unit), recur t) (types checker type))
  else if isTupleType checker type then
    (if hasRestElement checker type then tell (ConsoleWarn rest_warning)
     else mret ());;
    match typeArguments checker type with
    | None => throw TypeError
    | Some targs =>
        TypeMap.tuple typemap (map (λ t (_ : unit), recur t) targs)
    end
  else if isArrayType checker type then
    TypeMap.array typemap
      (λ _, processValue recur (getNumberIndexType checker type))
  else if isStringIndexedObjectType checker type then
    TypeMap.stringIndexObject typemap
      (λ _, processValue recur (getStringIndexType checker type))
  else if isNumberIndexedType checker type then
    TypeMap.numberIndexObject typemap
      (λ _, processValue recur (getStringIndexType checker type))
  else if isFunctionType checker type then
    TypeMap.function typemap {| args := []; return_ := None |}
  else if isObjectType checker type then
    processObjectType recur type
  else if isVoid checker type then
    TypeMap.void typemap ()
  else if isAnyOrUnknown checker type then
    TypeMap.unknown typemap ()
  else
    throw (Error ("Unknown type with type flags: "
                  +:+ arrayToString (extractFlags (flags checker type)))).

(** [processType]: [stack] bounds the nesting of the calls made from inside
    thunks, as the call stack of the host does; a call beyond it throws.
    Each call leaves a [Classify] event. *)
Fixpoint processType (stack : nat) (type : Ty) {struct stack} : M R :=
  tell (Classify type);;
  processTypeBody
    (λ t, match stack with
          | O => throw RangeError
          | S stack' => processType stack' t
          end)
    type.

(** A call of [processType] made from inside a thunk, when [stack] frames
    were left to the call that built the thunk. *)
Definition nestedCall (stack : nat) (type : Ty) : M R :=
  match stack with
  | O => throw RangeError
  | S stack' => processType stack' type
  end.

End Engine.

(** ** Declarations and the driver *)

(** [src/config.ts] *)
Definition DEFAULT_FILE_NAME : string := "maptype.ts".

Record TsToIoConfig := {
  followImports : bool;
  includeHeader : bool;
  fileNames : list string
}.

Definition defaultConfig : TsToIoConfig :=
  {| followImports := false; includeHeader := true; fileNames := [] |}.

(** The three shapes [handleDeclaration] accepts.  [name] is the location of
    the declared identifier; a variable statement lists the names of the
    declarations of its [declarationList]. *)
Inductive Declaration :=
| TypeAliasDeclaration (name : Loc)
| InterfaceDeclaration (name : Loc)
| VariableStatement (declarations : list Loc).

(** The kinds of syntax node the visitor tells apart.  A namespace
    [namespace N { ... }] is a [ModuleDeclaration] whose children are its
    name, an [Identifier], and its body, a [ModuleBlock]; the statements
    written between the braces are the children of that block. *)
Inductive Syntax :=
| Decl (d : Declaration)
| ModuleDeclaration
| ModuleBlock
| Identifier
| EndOfFileToken
| OtherSyntax.

(** A syntax node: [fileName] is [node.getSourceFile().fileName], [pos] the
    location the checker knows the node by, [children] what
    [ts.forEachChild] enumerates, in order. *)
Inductive Node :=
| mkNode (syntax : Syntax) (fileName : string) (pos : Loc)
         (children : list Node).

Definition children (node : Node) : list Node :=
  match node with mkNode _ _ _ c => c end.

(** One element of the output: [[string, R]]. *)
Definition Binding (R : Type) : Type := string * R.

(** The file filter of [visit]:
    [!config.followImports &&
     !config.fileNames.includes(node.getSourceFile().fileName)]. *)
Definition skipped (config : TsToIoConfig) (fileName : string) : bool :=
  negb (followImports config)
  && negb (bool_decide (fileName ∈ fileNames config)).

Section Driver.
Context {R : Type} (typemap : TypeMap R) (checker : Checker).
Context (processUndefined : M R).
Context (stack : nat).

(** [symbol!.name] and [symbol!.valueDeclaration] throw when no symbol was
    found; the name is read before the type is folded.  The [catch] of the
    source throws again what it caught. *)
Definition handleDeclaration (node : Declaration) (pos : Loc)
  : M (Binding R) :=
  match node with
  | VariableStatement declarations =>
      match declarations with
      | [] => throw TypeError
      | first :: _ =>
          match getSymbolAtLocation checker first with
          | None => throw TypeError
          | Some symbol =>
              let type := getTypeOfSymbolAtLocation checker symbol in
              r ← processType typemap checker processUndefined stack type;
              mret (name checker symbol, r)
          end
      end
  | TypeAliasDeclaration n | InterfaceDeclaration n =>
      let symbol := getSymbolAtLocation checker n in
      let type := getTypeAtLocation checker pos in
      match symbol with
      | None => throw TypeError
      | Some symbol =>
          r ← processType typemap checker processUndefined stack type;
          mret (name checker symbol, r)
      end
  end.

(** [visit]: the array [result] that the source pushes onto is threaded
    through. *)
Fixpoint visit (config : TsToIoConfig) (node : Node)
  (result : list (Binding R)) {struct node} : M (list (Binding R)) :=
  match node with
  | mkNode syntax fileName pos children =>
      if skipped config fileName then mret result
      else
        match syntax with
        | Decl d =>
            b ← handleDeclaration d pos;
            mret (result ++ [b])
        | ModuleDeclaration => foldM (visit config) children result
        | _ => mret result
        end
  end.

(** [processTypes]: [checker] and [sourceFile] are what [ts.createProgram]
    makes of the source text. *)
Definition processTypes (sourceFile : Node) (config : TsToIoConfig)
  : M (list (Binding R)) :=
  foldM (visit config) (children sourceFile) [].

End Driver.

(** The default value of the [config] parameter of [processTypes]. *)
Definition processTypesConfig : TsToIoConfig :=
  {| followImports := followImports defaultConfig;
     includeHeader := includeHeader defaultConfig;
     fileNames := [DEFAULT_FILE_NAME] |}.

(** ** The precedence list of the specification

    Section 4.2 of the specification reads the chain of tests of
    [processType] as a list in which the first match wins, and names the
    category each test stands for.  These definitions follow its words; the
    theorems below compare them with [processTypeBody]. *)

Inductive Test :=
| TLiteral | TPrimitive | TBasicObject | TRecord | TUnion | TIntersection
| TTuple | TArray | TStringIndexed | TNumberIndexed | TFunction | TObject
| TVoid | TAnyOrUnknown.

Definition precedence : list Test :=
  [TLiteral; TPrimitive; TBasicObject; TRecord; TUnion; TIntersection;
   TTuple; TArray; TStringIndexed; TNumberIndexed; TFunction; TObject;
   TVoid; TAnyOrUnknown].

Definition test (checker : Checker) (type : Ty) (k : Test) : bool :=
  match k with
  | TLiteral => isLiteralType checker type
  | TPrimitive => isPrimitiveType checker type
  | TBasicObject => isBasicObjectType checker type
  | TRecord => isRecordType checker type
  | TUnion => isUnion checker type
  | TIntersection => isIntersection checker type
  | TTuple => isTupleType checker type
  | TArray => isArrayType checker type
  | TStringIndexed => isStringIndexedObjectType checker type
  | TNumberIndexed => isNumberIndexedType checker type
  | TFunction => isFunctionType checker type
  | TObject => isObjectType checker type
  | TVoid => isVoid checker type
  | TAnyOrUnknown => isAnyOrUnknown checker type
  end.

(** First match wins. *)
Definition firstMatch (checker : Checker) (type : Ty) : option Test :=
  List.find (test checker type) precedence.

Module Category.
Inductive t :=
| Literal | String | Number | Boolean | Null | Undefined | Void | Any
| Unknown | EmptyObject | StringIndexObject | NumberIndexObject | Record
| Object | Function | Array | Union | Intersection | Tuple.
End Category.
Abbreviation Category := Category.t.

(** The primitive categories are told apart by the canonical text. *)
Definition primitiveCategory (text : string) : option Category :=
  if String.eqb text "string" then Some Category.String
  else if String.eqb text "number" then Some Category.Number
  else if String.eqb text "boolean" then Some Category.Boolean
  else if String.eqb text "null" then Some Category.Null
  else if String.eqb text "undefined" then Some Category.Undefined
  else None.

(** [classify]: [None] is a classification failure. *)
Definition classify (checker : Checker) (type : Ty) : option Category :=
  match firstMatch checker type with
  | Some TLiteral => Some Category.Literal
  | Some TPrimitive => primitiveCategory (typeToString checker type)
  | Some TBasicObject => Some Category.EmptyObject
  | Some TRecord => Some Category.Record
  | Some TUnion => Some Category.Union
  | Some TIntersection => Some Category.Intersection
  | Some TTuple => Some Category.Tuple
  | Some TArray => Some Category.Array
  | Some TStringIndexed => Some Category.StringIndexObject
  | Some TNumberIndexed => Some Category.NumberIndexObject
  | Some TFunction => Some Category.Function
  | Some TObject => Some Category.Object
  | Some TVoid => Some Category.Void
  | Some TAnyOrUnknown => Some Category.Unknown
  | None => None
  end.

Section Dispatch.
Context {R : Type} (typemap : TypeMap R) (checker : Checker).
Context (processUndefined : M R) (recur : Ty → M R).

(** Section 4.4 of the specification: the handler call that goes with each
    entry of the list, nested handles being passed as thunks; [None] is the
    failure of step 15. *)
Definition dispatch (type : Ty) (k : option Test) : M R :=
  let thunk (t : Ty) : Thunk R := λ _, recur t in
  let thunkOf (t : option Ty) : Thunk R :=
    λ _, processValue processUndefined recur t in
  let member (p : Symbol) : ObjectKeyType * Thunk R :=
    (KeyString (name checker p),
     thunk (getTypeOfSymbolAtLocation checker p)) in
  match k with
  | Some TLiteral =>
      TypeMap.literal typemap (LitString (typeToString checker type))
  | Some TPrimitive =>
      match primitiveCategory (typeToString checker type) with
      | Some Category.String => TypeMap.string typemap ()
      | Some Category.Number => TypeMap.number typemap ()
      | Some Category.Boolean => TypeMap.boolean typemap ()
      | Some Category.Null => TypeMap.null typemap ()
      | Some Category.Undefined => TypeMap.undefined typemap ()
      | _ => throw (Error "Unknown primitive type")
      end
  | Some TBasicObject => TypeMap.emptyObject typemap ()
  | Some TRecord =>
      match aliasTypeArguments checker type with
      | None => throw TypeError
      | Some targs =>
          TypeMap.record typemap
            {| key := thunkOf (targs !! 0%nat);
               value := thunkOf (targs !! 1%nat) |}
      end
  | Some TUnion => TypeMap.union typemap (map thunk (types checker type))
  | Some TIntersection =>
      TypeMap.intersection typemap (map thunk (types checker type))
  | Some TTuple =>
      (if hasRestElement checker type then tell (ConsoleWarn rest_warning)
       else mret ());;
      match typeArguments checker type with
      | None => throw TypeError
      | Some targs => TypeMap.tuple typemap (map thunk targs)
      end
  | Some TArray =>
      TypeMap.array typemap (thunkOf (getNumberIndexType checker type))
  | Some TStringIndexed =>
      TypeMap.stringIndexObject typemap
        (thunkOf (getStringIndexType checker type))
  | Some TNumberIndexed =>
      TypeMap.numberIndexObject typemap
        (thunkOf (getStringIndexType checker type))
  | Some TFunction =>
      TypeMap.function typemap {| args := []; return_ := None |}
  | Some TObject =>
      match mapM (questionToken checker) (getPropertiesOfType checker type)
      with
      | None => throw TypeError
      | Some _ =>
          let all := getPropertiesOfType checker type in
          TypeMap.object typemap
            {| properties :=
                 map member
                   (filter (λ p, questionToken checker p = Some false) all);
               optionalProperties :=
                 map member
                   (filter (λ p, questionToken checker p = Some true) all) |}
      end
  | Some TVoid => TypeMap.void typemap ()
  | Some TAnyOrUnknown => TypeMap.unknown typemap ()
  | None =>
      throw (Error ("Unknown type with type flags: "
                    +:+ arrayToString (extractFlags (flags checker type))))
  end.

End Dispatch.

(** The categories that carry nested type handles. *)
Definition nested (c : Category) : bool :=
  match c with
  | Category.Record | Category.Union | Category.Intersection
  | Category.Tuple | Category.Array | Category.StringIndexObject
  | Category.NumberIndexObject | Category.Object => true
  | _ => false
  end.

(** The handles whose classification a log records. *)
Definition classified (l : list Event) : list Ty :=
  omap (λ ev, match ev with Classify t => Some t | _ => None end) l.

(** The warnings a log records. *)
Definition warnings (l : list Event) : list string :=
  omap (λ ev, match ev with ConsoleWarn m => Some m | _ => None end) l.

Section Handlers.
Context {R : Type}.



(** The handler set with another [any] handler. *)
Definition withAny (typemap : TypeMap R) (h : unit → M R) : TypeMap R :=
  {| TypeMap.literal := TypeMap.literal typemap;
     TypeMap.void := TypeMap.void typemap;
     TypeMap.string := TypeMap.string typemap;
     TypeMap.number := TypeMap.number typemap;
     TypeMap.boolean := TypeMap.boolean typemap;
     TypeMap.null := TypeMap.null typemap;
     TypeMap.undefined := TypeMap.undefined typemap;
     TypeMap.any := h;
     TypeMap.unknown := TypeMap.unknown typemap;
     TypeMap.emptyObject := TypeMap.emptyObject typemap;
     TypeMap.stringIndexObject := TypeMap.stringIndexObject typemap;
     TypeMap.numberIndexObject := TypeMap.numberIndexObject typemap;
     TypeMap.object := TypeMap.object typemap;
     TypeMap.function := TypeMap.function typemap;
     TypeMap.record := TypeMap.record typemap;
     TypeMap.array := TypeMap.array typemap;
     TypeMap.union := TypeMap.union typemap;
     TypeMap.intersection := TypeMap.intersection typemap;
     TypeMap.tuple := TypeMap.tuple typemap |}.

End Handlers.

(** ** What the driver reaches *)

(** The declarations [visit] hands to [handleDeclaration], in the order in
    which it reaches them. *)
Fixpoint visited (config : TsToIoConfig) (node : Node)
  : list (Declaration * Loc) :=
  match node with
  | mkNode syntax fileName pos children =>
      if skipped config fileName then []
      else
        match syntax with
        | Decl d => [(d, pos)]
        | ModuleDeclaration => flat_map (visited config) children
        | _ => []
        end
  end.

(** The declarations a run of [processTypes] reaches: the visitor is applied
    to the children of the source file, not to the file itself. *)
Definition reached (config : TsToIoConfig) (sourceFile : Node)
  : list (Declaration * Loc) :=
  flat_map (visited config) (children sourceFile).

(** The handle [handleDeclaration] folds for a declaration, when it gets as
    far as having one. *)
Definition declaredType (checker : Checker) (d : Declaration) (pos : Loc)
  : option Ty :=
  match d with
  | VariableStatement declarations =>
      first ← head declarations;
      symbol ← getSymbolAtLocation checker first;
      Some (getTypeOfSymbolAtLocation checker symbol)
  | TypeAliasDeclaration _ | InterfaceDeclaration _ =>
      Some (getTypeAtLocation checker pos)
  end.

(** The symbol whose name a declaration is bound to. *)
Definition declaredSymbol (checker : Checker) (d : Declaration)
  : option Symbol :=
  match d with
  | VariableStatement declarations =>
      first ← head declarations;
      getSymbolAtLocation checker first
  | TypeAliasDeclaration n | InterfaceDeclaration n =>
      getSymbolAtLocation checker n
  end.

Section Run.
Context {R : Type} (typemap : TypeMap R) (checker : Checker).
Context (processUndefined : M R) (stack : nat).

(** [result.push(handleDeclaration(typemap, node, checker))] *)
Definition pushDeclaration (d : Declaration * Loc) (result : list (Binding R))
  : M (list (Binding R)) :=
  b ← handleDeclaration typemap checker processUndefined stack d.1 d.2;
  mret (result ++ [b]).

End Run.

(** ** The handler set of the repository's tests

    The [typeMap] of [src/index.spec.ts], which renders io-ts validators. *)

Section Invoke.
Context {R : Type}.

(** [a.map(f => f())] *)
Fixpoint invokeAll (a : list (Thunk R)) : M (list R) :=
  match a with
  | [] => mret []
  | f :: a' => r ← f (); rs ← invokeAll a'; mret (r :: rs)
  end.

End Invoke.

(** [String(k)] *)
Definition keyToString (k : ObjectKeyType) : string :=
  match k with
  | KeyString s => s
  | KeyNumber n => NilZero.string_of_int (Z.to_int n)
  | KeySymbol d => "Symbol(" +:+ d +:+ ")"
  end.

Definition literalToString (val : LiteralValue) : string :=
  match val with
  | LitBoolean true => "true"
  | LitBoolean false => "false"
  | LitNumber n => NilZero.string_of_int (Z.to_int n)
  | LitString s => s
  end.

(** [([k, f]) => `${String(k)}: ${f()}`], mapped over the entries. *)
Fixpoint renderEntries (l : list (ObjectKeyType * Thunk string))
  : M (list string) :=
  match l with
  | [] => mret []
  | (k, f) :: l' =>
      r ← f (); rs ← renderEntries l';
      mret ((keyToString k +:+ ": " +:+ r) :: rs)
  end.

Definition ioObject (a : ObjectPayload string) : M string :=
  if negb (length (properties a) =? 0)%nat
     && negb (length (optionalProperties a) =? 0)%nat
  then
    ps ← renderEntries (properties a);
    os ← renderEntries (optionalProperties a);
    mret ("t.intersection([t.type({" +:+ String.concat "," ps
          +:+ "}), t.partial({" +:+ String.concat ", " os +:+ "})])")
  else if (length (optionalProperties a) =? 0)%nat then
    ps ← renderEntries (properties a);
    mret ("t.type({" +:+ String.concat ", " ps +:+ "})")
  else
    os ← renderEntries (optionalProperties a);
    mret ("t.partial({" +:+ String.concat ", " os +:+ "})").

Definition ioTypeMap : TypeMap string :=
  {| TypeMap.string := λ _, mret "t.string";
     TypeMap.number := λ _, mret "t.number";
     TypeMap.boolean := λ _, mret "t.boolean";
     TypeMap.literal := λ val,
       mret ("t.literal(" +:+ literalToString val +:+ ")");
     TypeMap.null := λ _, mret "t.null";
     TypeMap.undefined := λ _, mret "t.undefined";
     TypeMap.void := λ _, mret "t.void";
     TypeMap.any := λ _, mret "t.any";
     TypeMap.unknown := λ _, mret "t.any";
     TypeMap.emptyObject := λ _, mret "t.type({})";
     TypeMap.stringIndexObject := λ a,
       r ← a (); mret ("t.record(t.string, " +:+ r +:+ ")");
     TypeMap.numberIndexObject := λ a,
       r ← a (); mret ("t.record(t.number, " +:+ r +:+ ")");
     TypeMap.object := ioObject;
     TypeMap.function := λ _, mret "t.Function";
     TypeMap.record := λ a,
       k ← key a (); v ← value a ();
       mret ("t.record(" +:+ k +:+ ", " +:+ v +:+ ")");
     TypeMap.array := λ a, r ← a (); mret ("t.array(" +:+ r +:+ ")");
     TypeMap.union := λ a,
       rs ← invokeAll a; mret ("t.union([" +:+ String.concat ", " rs +:+ "])");
     TypeMap.intersection := λ a,
       rs ← invokeAll a;
       mret ("t.intersection([" +:+ String.concat ", " rs +:+ "])");
     TypeMap.tuple := λ a,
       rs ← invokeAll a; mret ("t.tuple([" +:+ String.concat ", " rs +:+ "])")
  |}.

(** A handler set that never looks at what it is given. *)
Definition namesOnly : TypeMap string :=
  {| TypeMap.string := λ _, mret "string";
     TypeMap.number := λ _, mret "number";
     TypeMap.boolean := λ _, mret "boolean";
     TypeMap.literal := λ _, mret "literal";
     TypeMap.null := λ _, mret "null";
     TypeMap.undefined := λ _, mret "undefined";
     TypeMap.void := λ _, mret "void";
     TypeMap.any := λ _, mret "any";
     TypeMap.unknown := λ _, mret "unknown";
     TypeMap.emptyObject := λ _, mret "emptyObject";
     TypeMap.stringIndexObject := λ _, mret "stringIndexObject";
     TypeMap.numberIndexObject := λ _, mret "numberIndexObject";
     TypeMap.object := λ _, mret "object";
     TypeMap.function := λ _, mret "function";
     TypeMap.record := λ _, mret "record";
     TypeMap.array := λ _, mret "array";
     TypeMap.union := λ _, mret "union";
     TypeMap.intersection := λ _, mret "intersection";
     TypeMap.tuple := λ _, mret "tuple" |}.

(** ** A resolution context for the types of the tests

    The handles stand for the types the repository's tests declare, and a
    few more:
    1 [string], 2 [number], 3 [boolean], 4 [null], 5 [undefined],
    6 the literal [0], 7 the literal [1], 8 [void], 9 [any],
    10 [{x: number, y: number}], 11 [Record<string, {x: number, y: number}>],
    12 [[boolean, boolean]], 13 [null | undefined], 14 [0 | 1],
    15 [interface Test { foo: string, bar?: number }],
    16 [undefined | number], 17 [string[]], 18 [() => void],
    19 a type none of the tests recognises,
    20 [[string, ...number[]]], whose type arguments are [string] and [number],
    21 [{ [k: number]: string }], 22 a handle that passes both the tuple
    and the array test, 23 [interface List { next: List }], 24 [unknown],
    25 [{ [k: string]: number }], 27 the union of 1 and 19,
    28 [bigint], which no test recognises either,
    29 an unrecognised type with flags 100,
    30 a tuple with a rest element whose first element is the type 19,
    31 the mapped type [Partial<{ foo: string }>], whose property has no
    value declaration, 32 the generic tuple type with a rest element that
    20 and 30 instantiate: it is their [target], it has the member
    [hasRestElement], which the references 20 and 30 have not, and its type
    arguments are its own type parameters (19).
    Symbols 1 to 7 are properties; symbol [100 + t] is the name declared
    for type [t], found at location [200 + t], the declaration itself being
    at location [300 + t]. *)

Local Open Scope positive_scope.

Definition among (l : list positive) (t : positive) : bool :=
  bool_decide (t ∈ l).

Definition testChecker : Checker :=
  {| flags := λ t,
       match t with
       | 1 => 4%N | 2 => 8%N | 3 => 16%N | 4 => 65536%N | 5 => 32768%N
       | 6 | 7 => 256%N | 8 => 16384%N | 9 => 1%N | 24 => 2%N
       | 13 | 14 | 16 | 27 => 1048576%N
       | 19 => 131072%N | 28 => 64%N | 29 => 100%N
       | _ => 524288%N
       end;
     isUnion := among [13; 14; 16; 27];
     isIntersection := λ _, false;
     types := λ t,
       match t with
       | 13 => [5; 4] | 14 => [6; 7] | 16 => [5; 2] | 27 => [1; 19]
       | _ => []
       end;
     aliasTypeArguments := λ t,
       match t with 11 => Some [1; 10] | _ => None end;
     hasRestElement := among [32];
     target := λ t,
       match t with 20 | 30 | 32 => Some 32 | _ => None end;
     typeArguments := λ t,
       match t with
       | 12 => Some [3; 3] | 20 => Some [1; 2] | 22 => Some [2; 2]
       | 17 => Some [1] | 30 => Some [19; 2] | 32 => Some [19; 19]
       | _ => None
       end;
     getNumberIndexType := λ t,
       match t with
       | 17 | 21 => Some 1 | 22 => Some 2 | _ => None
       end;
     getStringIndexType := λ t,
       match t with 25 => Some 2 | _ => None end;
     name := λ s,
       match s with
       | 1 => "x" | 2 => "y" | 3 => "foo" | 4 => "bar" | 5 => "next"
       | 6 => "bad" | 7 => "foo" | 101 => "A"
       | 111 => "X" | 112 => "Y" | 113 => "Z" | 114 => "B" | 115 => "Test"
       | 117 => "arr" | 118 => "fn" | 119 => "N" | 120 => "R"
       | _ => "T"
       end%string;
     questionToken := λ s,
       match s with 4 => Some true | 7 => None | _ => Some false end;
     typeToString := λ t,
       match t with
       | 1 => "string" | 2 => "number" | 3 => "boolean" | 4 => "null"
       | 5 => "undefined" | 6 => "0" | 7 => "1" | 8 => "void" | 9 => "any"
       | 24 => "unknown" | 28 => "bigint"
       | _ => "object"
       end%string;
     getPropertiesOfType := λ t,
       match t with
       | 10 => [1; 2] | 15 => [3; 4] | 23 => [5] | 31 => [7]
       | _ => []
       end;
     getTypeOfSymbolAtLocation := λ s,
       match s with
       | 1 | 2 => 2 | 3 | 7 => 1 | 4 => 16 | 5 => 23 | 6 => 19
       | _ => s - 100
       end;
     getSymbolAtLocation := λ l,
       if (200 <? l) && (l <? 300) then Some (l - 100) else None;
     getTypeAtLocation := λ l, l - 300;
     isLiteralType := among [6; 7];
     isPrimitiveType := among [1; 2; 3; 4; 5];
     isBasicObjectType := λ _, false;
     isRecordType := among [11];
     isTupleType := among [12; 20; 22; 30; 32];
     isArrayType := among [17; 22];
     isStringIndexedObjectType := among [25];
     isNumberIndexedType := among [17; 21; 22];
     isFunctionType := among [18];
     isObjectType :=
       among [10; 11; 12; 15; 17; 18; 20; 21; 22; 23; 25; 30; 31; 32];
     isVoid := among [8];
     isAnyOrUnknown := among [9; 24] |}.

(** [type T = ...] for the type [t], in the entry file. *)
Definition typeAlias (t : Ty) : Node :=
  mkNode (Decl (TypeAliasDeclaration (200 + t))) DEFAULT_FILE_NAME (300 + t) [].

Definition interface (t : Ty) : Node :=
  mkNode (Decl (InterfaceDeclaration (200 + t))) DEFAULT_FILE_NAME (300 + t) [].

Definition sourceFileOf (statements : list Node) : Node :=
  mkNode OtherSyntax DEFAULT_FILE_NAME 1
    (statements ++ [mkNode EndOfFileToken DEFAULT_FILE_NAME 2 []]).

(** [namespace N { ... }] as the parser builds it. *)
Definition namespace (statements : list Node) : Node :=
  mkNode ModuleDeclaration DEFAULT_FILE_NAME 3
    [mkNode Identifier DEFAULT_FILE_NAME 4 [];
     mkNode ModuleBlock DEFAULT_FILE_NAME 5 statements].

(** The source of the test [ts-to-io], without its string literals. *)
Definition testSource : Node :=
  sourceFileOf [typeAlias 11; typeAlias 12; typeAlias 13; typeAlias 14].

(** [type Y = [boolean, boolean]; type N = <unrecognised>;
    type arr = string[]] *)
Definition failingSource : Node :=
  sourceFileOf [typeAlias 12; typeAlias 19; typeAlias 17].

(** [type A = string; namespace N { type Y = [boolean, boolean] };
    type B = 0 | 1] *)
Definition namespaceSource : Node :=
  sourceFileOf [typeAlias 1; namespace [typeAlias 12]; typeAlias 14].

Local Close Scope positive_scope.

(** The same context, in which no handle has type arguments or alias type
    arguments: both members are [undefined]. *)
Definition withoutTypeArguments (checker : Checker) : Checker :=
  {| flags := flags checker;
     isUnion := isUnion checker;
     isIntersection := isIntersection checker;
     types := types checker;
     aliasTypeArguments := λ _, None;
     hasRestElement := hasRestElement checker;
     target := target checker;
     typeArguments := λ _, None;
     getNumberIndexType := getNumberIndexType checker;
     getStringIndexType := getStringIndexType checker;
     name := name checker;
     questionToken := questionToken checker;
     typeToString := typeToString checker;
     getPropertiesOfType := getPropertiesOfType checker;
     getTypeOfSymbolAtLocation := getTypeOfSymbolAtLocation checker;
     getSymbolAtLocation := getSymbolAtLocation checker;
     getTypeAtLocation := getTypeAtLocation checker;
     isLiteralType := isLiteralType checker;
     isPrimitiveType := isPrimitiveType checker;
     isBasicObjectType := isBasicObjectType checker;
     isRecordType := isRecordType checker;
     isTupleType := isTupleType checker;
     isArrayType := isArrayType checker;
     isStringIndexedObjectType := isStringIndexedObjectType checker;
     isNumberIndexedType := isNumberIndexedType checker;
     isFunctionType := isFunctionType checker;
     isObjectType := isObjectType checker;
     isVoid := isVoid checker;
     isAnyOrUnknown := isAnyOrUnknown checker |}.

(** A member access on [undefined]. *)
Definition undefinedThrows {R : Type} : M R := throw TypeError.

(** * Properties *)

(** ** Computations *)

Lemma M_eta {A} (m : M A) : Run (log m) (result m) = m.
Proof. by destruct m. Qed.

Lemma bind_mret {A B} (a : A) (f : A → M B) : (mret a ≫= f) = f a.
Proof. unfold mbind, M_bind; simpl. apply M_eta. Qed.


Lemma bind_throw {A B} (e : JsError) (f : A → M B) :
  (throw e ≫= f) = throw e.
Proof. reflexivity. Qed.

Lemma bind_Return {A B} (l : list Event) (a : A) (f : A → M B) :
  (Run l (Return a) ≫= f) = Run (l ++ log (f a)) (result (f a)).
Proof. reflexivity. Qed.

Lemma bind_Throw {A B} (l : list Event) (e : JsError) (f : A → M B) :
  (Run l (Throw e) ≫= f) = Run l (Throw e).
Proof. reflexivity. Qed.

Lemma bind_assoc {A B C} (m : M A) (f : A → M B) (g : B → M C) :
  ((m ≫= f) ≫= g) = (m ≫= λ a, f a ≫= g).
Proof.
  destruct m as [l [a|e]]; [|reflexivity].
  unfold mbind, M_bind; simpl.
  destruct (f a) as [l' [b|e']]; simpl; [|reflexivity].
  by rewrite app_assoc.
Qed.

(** A computation that throws keeps throwing, whatever follows. *)
Lemma result_bind_Throw {A B} (m : M A) (f : A → M B) e :
  result m = Throw e → result (m ≫= f) = Throw e.
Proof. intros H. unfold mbind, M_bind. by rewrite H. Qed.

Lemma result_bind {A B} (m : M A) (f : A → M B) :
  result (m ≫= f) =
  match result m with
  | Return a => result (f a)
  | Throw e => Throw e
  end.
Proof. unfold mbind, M_bind. by destruct (result m). Qed.

Lemma classified_app l1 l2 :
  classified (l1 ++ l2) = classified l1 ++ classified l2.
Proof. apply omap_app. Qed.

Lemma bind_ext {A B} (m : M A) (f g : A → M B) :
  (∀ a, f a = g a) → (m ≫= f) = (m ≫= g).
Proof.
  intros H. destruct m as [l [a|e]]; [|reflexivity].
  unfold mbind, M_bind; simpl. by rewrite H.
Qed.

Lemma foldM_nil {A S} (f : A → S → M S) (s : S) : foldM f [] s = mret s.
Proof. reflexivity. Qed.

Lemma foldM_cons {A S} (f : A → S → M S) x (l : list A) (s : S) :
  foldM f (x :: l) s = (f x s ≫= foldM f l).
Proof. reflexivity. Qed.

Lemma foldM_app {A S} (f : A → S → M S) (l1 l2 : list A) (s : S) :
  foldM f (l1 ++ l2) s = (foldM f l1 s ≫= foldM f l2).
Proof.
  revert s; induction l1 as [|x l1 IH]; intros s.
  - by rewrite app_nil_l, foldM_nil, bind_mret.
  - rewrite <- app_comm_cons, !foldM_cons, bind_assoc.
    apply bind_ext, IH.
Qed.

(** ** The expectations of the repository's tests

    The embedding is run on the declarations of [src/index.spec.ts] (those
    without string literals) and returns what the tests expect. *)

Example test_ts_to_io :
  result (processTypes ioTypeMap testChecker undefinedThrows 3 testSource
            processTypesConfig) =
  Return [("X", "t.record(t.string, t.type({x: t.number, y: t.number}))");
          ("Y", "t.tuple([t.boolean, t.boolean])");
          ("Z", "t.union([t.undefined, t.null])");
          ("B", "t.union([t.literal(0), t.literal(1)])")].
Proof. reflexivity. Qed.

Example test_interfaces_arrays_functions :
  result (processTypes ioTypeMap testChecker undefinedThrows 3
            (sourceFileOf [interface 15%positive; typeAlias 17%positive;
                           typeAlias 18%positive])
            processTypesConfig) =
  Return [("Test",
           "t.intersection([t.type({foo: t.string}), t.partial({bar: t.union([t.undefined, t.number])})])");
          ("arr", "t.array(t.string)");
          ("fn", "t.Function")].
Proof. reflexivity. Qed.

(** A node of another file is skipped unless imports are followed. *)
Example test_file_filter :
  processTypes ioTypeMap testChecker undefinedThrows 3
    (sourceFileOf
       [mkNode (Decl (TypeAliasDeclaration 201%positive)) "lib.d.ts"
          301%positive []; typeAlias 2%positive])
    processTypesConfig =
  Run [Classify 2%positive] (Return [("T", "t.number")]).
Proof. reflexivity. Qed.

(** ** The chain of tests is the precedence list *)

Section EngineFacts.
Context {R : Type} (typemap : TypeMap R) (checker : Checker).
Context (processUndefined : M R).

Lemma processType_unfold (stack : nat) (type : Ty) :
  processType typemap checker processUndefined stack type =
  (tell (Classify type);;
   processTypeBody typemap checker processUndefined
     (nestedCall typemap checker processUndefined stack) type).
Proof. by destruct stack. Qed.

Lemma primitiveCategory_cases (text : string) :
  primitiveCategory text =
  if String.eqb text "string" then Some Category.String
  else if String.eqb text "number" then Some Category.Number
  else if String.eqb text "boolean" then Some Category.Boolean
  else if String.eqb text "null" then Some Category.Null
  else if String.eqb text "undefined" then Some Category.Undefined
  else None.
Proof. reflexivity. Qed.

(** The two filters of [processObjectType]: they keep the properties whose
    token is as asked, in order, when every property has a value
    declaration, and throw otherwise. *)
Lemma filterByToken_all (keep : bool → bool) (P : Symbol → Prop)
  `{!∀ p, Decision (P p)} (l : list Symbol) :
  (∀ p token, questionToken checker p = Some token →
              (P p ↔ keep token = true)) →
  Forall (λ p, is_Some (questionToken checker p)) l →
  filterByToken checker keep l = mret (filter P l).
Proof.
  intros HP Hall. induction Hall as [|p l [token Htoken] _ IH]; [done|].
  simpl. rewrite Htoken, IH, bind_mret, filter_cons.
  destruct (keep token) eqn:Hkeep.
  - rewrite decide_True; [done|]. by apply (HP p token).
  - rewrite decide_False; [done|]. rewrite (HP p token Htoken), Hkeep.
    discriminate.
Qed.

Lemma filterByToken_missing (keep : bool → bool) (l : list Symbol) :
  mapM (questionToken checker) l = None →
  filterByToken checker keep l = throw TypeError.
Proof.
  induction l as [|p l IH]; simpl; [intros H; discriminate H|].
  destruct (questionToken checker p) as [token|]; simpl; [|done].
  destruct (mapM (questionToken checker) l); simpl;
    [intros H; discriminate H|].
  intros _. by rewrite IH.
Qed.

Lemma processObjectType_dispatch (recur : Ty → M R) (type : Ty) :
  processObjectType typemap checker recur type =
  dispatch typemap checker processUndefined recur type (Some TObject).
Proof.
  unfold processObjectType, dispatch, processProperty.
  destruct (mapM (questionToken checker) (getPropertiesOfType checker type))
    as [tokens|] eqn:Htokens.
  - assert (Forall (λ p, is_Some (questionToken checker p))
              (getPropertiesOfType checker type)) as Hall.
    { apply (mapM_is_Some_1 (questionToken checker)). by rewrite Htokens. }
    rewrite (filterByToken_all negb
               (λ p, questionToken checker p = Some false)), bind_mret;
      [|intros p [] ->; split; (done || discriminate)|done].
    rewrite (filterByToken_all id
               (λ p, questionToken checker p = Some true)), bind_mret;
      [done|intros p [] ->; split; (done || discriminate)|done].
  - by rewrite (filterByToken_missing negb _ Htokens).
Qed.

(** The chain of [if]s of [processType] takes the branch of the first test
    of the list that the handle passes, and calls the handler the
    specification names for it. *)
Lemma processTypeBody_dispatch (recur : Ty → M R) (type : Ty) :
  processTypeBody typemap checker processUndefined recur type =
  dispatch typemap checker processUndefined recur type
    (firstMatch checker type).
Proof.
  unfold processTypeBody, firstMatch, precedence; simpl.
  repeat (match goal with
          | |- (if ?b then _ else _) = _ =>
              destruct b;
              [first [ reflexivity
                     | apply processObjectType_dispatch
                     | unfold dispatch, primitiveCategory; simpl;
                       repeat (match goal with
                               | |- context [if ?c then _ else _] =>
                                   destruct c
                               end; simpl);
                       reflexivity ]
              |]
          end).
  reflexivity.
Qed.

End EngineFacts.

(** ** First match wins *)

Section Precedence.
Context (checker : Checker) (type : Ty).

Lemma find_first (pre post : list Test) (k : Test) :
  Forall (λ k', test checker type k' = false) pre →
  test checker type k = true →
  List.find (test checker type) (pre ++ k :: post) = Some k.
Proof.
  intros Hpre Hk. induction Hpre as [|k' pre Hk' _ IH]; simpl.
  - by rewrite Hk.
  - by rewrite Hk'.
Qed.

Lemma firstMatch_passes (k : Test) :
  firstMatch checker type = Some k → test checker type k = true.
Proof. intros H. by apply find_some in H as [_ H]. Qed.

Lemma firstMatch_None :
  firstMatch checker type = None ↔
  Forall (λ k, test checker type k = false) precedence.
Proof.
  unfold firstMatch. rewrite Forall_forall. split.
  - intros H k Hk. apply list_elem_of_In in Hk.
    by apply (find_none _ _ H).
  - intros H. destruct (List.find _ _) as [k|] eqn:Hfind; [|done].
    apply find_some in Hfind as [Hin Hk].
    apply list_elem_of_In in Hin. rewrite (H k Hin) in Hk. done.
Qed.

(** The category of a handle tells which test came first. *)
Lemma classify_firstMatch (c : Category) :
  classify checker type = Some c →
  match c with
  | Category.Literal => firstMatch checker type = Some TLiteral
  | Category.EmptyObject => firstMatch checker type = Some TBasicObject
  | Category.Record => firstMatch checker type = Some TRecord
  | Category.Union => firstMatch checker type = Some TUnion
  | Category.Intersection => firstMatch checker type = Some TIntersection
  | Category.Tuple => firstMatch checker type = Some TTuple
  | Category.Array => firstMatch checker type = Some TArray
  | Category.StringIndexObject =>
      firstMatch checker type = Some TStringIndexed
  | Category.NumberIndexObject =>
      firstMatch checker type = Some TNumberIndexed
  | Category.Function => firstMatch checker type = Some TFunction
  | Category.Object => firstMatch checker type = Some TObject
  | Category.Void => firstMatch checker type = Some TVoid
  | Category.Unknown => firstMatch checker type = Some TAnyOrUnknown
  | Category.Any => False
  | _ => firstMatch checker type = Some TPrimitive
  end.
Proof.
  unfold classify, primitiveCategory.
  destruct (firstMatch checker type) as [[]|]; intros H;
    repeat (match type of H with
            | (if ?b then _ else _) = _ => destruct b
            end);
    simplify_eq; done.
Qed.

End Precedence.

(** ** Literals *)

(** C9. A handle that passes the literal test is given to the [literal]
    handler as the text [checker.typeToString] renders for it: a string,
    computed when the branch is taken and passed as a value, not as a
    thunk, whatever kind of literal it is. *)
Theorem literal_handler_receives_text {R} (typemap : TypeMap R)
  (checker : Checker) (processUndefined : M R) (stack : nat) (type : Ty) :
  isLiteralType checker type = true →
  classify checker type = Some Category.Literal ∧
  processType typemap checker processUndefined stack type =
    (tell (Classify type);;
     TypeMap.literal typemap (LitString (typeToString checker type))).
Proof.
  intros Hlit.
  assert (firstMatch checker type = Some TLiteral) as Hfirst
    by (by apply (find_first checker type [] _ TLiteral)).
  split.
  - unfold classify. by rewrite Hfirst.
  - by rewrite processType_unfold, processTypeBody_dispatch, Hfirst.
Qed.

(** The numeric literal [0] reaches the handler as the string ["0"]. *)
Lemma literal_handler_receives_text_witness :
  classify testChecker 6%positive = Some Category.Literal ∧
  processType ioTypeMap testChecker undefinedThrows 0 6%positive =
    (tell (Classify 6%positive);; TypeMap.literal ioTypeMap (LitString "0")).
Proof.
  exact (literal_handler_receives_text ioTypeMap testChecker undefinedThrows
           0 6%positive eq_refl).
Defined.

(** ** Tuples come before arrays *)

(** C1. A handle that passes both the tuple test and the array test is never
    classified as an array; when none of the six tests that come before the
    tuple test claims it, it is classified as a tuple and [processType]
    returns what the [tuple] handler returns on the thunks of its type
    arguments. *)
Theorem tuple_before_array {R} (typemap : TypeMap R) (checker : Checker)
  (processUndefined : M R) (stack : nat) (type : Ty) :
  isTupleType checker type = true →
  isArrayType checker type = true →
  classify checker type ≠ Some Category.Array ∧
  (Forall (λ k, test checker type k = false)
     [TLiteral; TPrimitive; TBasicObject; TRecord; TUnion; TIntersection] →
   classify checker type = Some Category.Tuple ∧
   processType typemap checker processUndefined stack type =
     (tell (Classify type);;
      (if hasRestElement checker type then tell (ConsoleWarn rest_warning)
       else mret ());;
      match typeArguments checker type with
      | None => throw TypeError
      | Some targs =>
          TypeMap.tuple typemap
            (map (λ t _, nestedCall typemap checker processUndefined stack t)
                 targs)
      end)).
Proof.
  intros Htuple Harray. split.
  - intros Hc. apply classify_firstMatch in Hc.
    unfold firstMatch, precedence in Hc; simpl in Hc.
    rewrite Htuple in Hc.
    repeat (match type of Hc with
            | (if ?b then _ else _) = _ => destruct b
            end); discriminate.
  - intros Hearlier.
    assert (firstMatch checker type = Some TTuple) as Hfirst
      by (by apply (find_first checker type _ _ TTuple Hearlier)).
    split.
    + unfold classify. by rewrite Hfirst.
    + by rewrite processType_unfold, processTypeBody_dispatch, Hfirst.
Qed.

(** Handle 22 passes both tests and is folded as the tuple
    [[number, number]]. *)
Lemma tuple_before_array_witness :
  classify testChecker 22%positive ≠ Some Category.Array ∧
  classify testChecker 22%positive = Some Category.Tuple ∧
  processType ioTypeMap testChecker undefinedThrows 1 22%positive =
    Run [Classify 22%positive; Classify 2%positive; Classify 2%positive]
        (Return "t.tuple([t.number, t.number])").
Proof.
  destruct (tuple_before_array ioTypeMap testChecker undefinedThrows 1
              22%positive eq_refl eq_refl) as [Hnot Hyes].
  split; [exact Hnot|].
  destruct Hyes as [Hc Hp]; [by repeat constructor|].
  split; [exact Hc|]. rewrite Hp. reflexivity.
Defined.

(** ** Functions *)

(** C7. For a handle classified as a function the [function] handler is
    called with no argument thunks and a null return thunk.  Nothing of the
    signature is folded: the result does not depend on the stack that is
    left, nor on what a fold of [undefined] would do. *)
Theorem function_payload_is_empty {R} (typemap : TypeMap R)
  (checker : Checker) (processUndefined : M R) (stack : nat) (type : Ty) :
  classify checker type = Some Category.Function →
  processType typemap checker processUndefined stack type =
    (tell (Classify type);;
     TypeMap.function typemap {| args := []; return_ := None |}) ∧
  ∀ processUndefined' stack',
    processType typemap checker processUndefined' stack' type =
    processType typemap checker processUndefined stack type.
Proof.
  intros Hc. apply classify_firstMatch in Hc; simpl in Hc.
  split; [|intros u' stack'];
    by rewrite !processType_unfold, !processTypeBody_dispatch, Hc.
Qed.

Lemma function_payload_is_empty_witness :
  processType ioTypeMap testChecker undefinedThrows 0 18%positive =
    (tell (Classify 18%positive);;
     TypeMap.function ioTypeMap {| args := []; return_ := None |}) ∧
  ∀ processUndefined' stack',
    processType ioTypeMap testChecker processUndefined' stack' 18%positive =
    processType ioTypeMap testChecker undefinedThrows 0 18%positive.
Proof.
  exact (function_payload_is_empty ioTypeMap testChecker undefinedThrows
           0 18%positive eq_refl).
Defined.

(** ** The driver folds the declarations it reaches, in order *)

Lemma Node_nested_ind (P : Node → Prop) :
  (∀ syntax fileName pos children,
     Forall P children → P (mkNode syntax fileName pos children)) →
  ∀ node, P node.
Proof.
  intros Hnode. fix IH 1. intros [syntax fileName pos children].
  apply Hnode. induction children as [|c children IHc]; constructor.
  - apply IH.
  - apply IHc.
Qed.

Section DriverFacts.
Context {R : Type} (typemap : TypeMap R) (checker : Checker).
Context (processUndefined : M R) (stack : nat).

Lemma foldM_visit (config : TsToIoConfig) (nodes : list Node) :
  Forall (λ node, ∀ result,
            visit typemap checker processUndefined stack config node result
            = foldM (pushDeclaration typemap checker processUndefined stack)
                (visited config node) result) nodes →
  ∀ result,
    foldM (visit typemap checker processUndefined stack config) nodes result
    = foldM (pushDeclaration typemap checker processUndefined stack)
        (flat_map (visited config) nodes) result.
Proof.
  induction 1 as [|node nodes Hnode _ IH]; intros result.
  - reflexivity.
  - simpl flat_map. rewrite foldM_cons, foldM_app, Hnode.
    apply bind_ext, IH.
Qed.

Lemma visit_visited (config : TsToIoConfig) (node : Node) :
  ∀ result,
    visit typemap checker processUndefined stack config node result =
    foldM (pushDeclaration typemap checker processUndefined stack)
      (visited config node) result.
Proof.
  induction node as [syntax fileName pos children IH] using Node_nested_ind.
  intros result. simpl. fold (skipped config fileName).
  destruct (skipped config fileName); [reflexivity|].
  destruct syntax; try reflexivity.
  - simpl. unfold pushDeclaration; simpl.
    rewrite bind_assoc. apply bind_ext. intros b. by rewrite bind_mret.
  - by apply foldM_visit.
Qed.

(** [processTypes] is the fold of [handleDeclaration] over the
    declarations it reaches, in the order of [reached]. *)
Lemma processTypes_reached (sourceFile : Node) (config : TsToIoConfig) :
  processTypes typemap checker processUndefined stack sourceFile config =
  foldM (pushDeclaration typemap checker processUndefined stack)
    (reached config sourceFile) [].
Proof.
  unfold processTypes, reached. apply foldM_visit.
  apply Forall_forall. intros node _. apply visit_visited.
Qed.

End DriverFacts.

(** ** [any] and [unknown] *)

Section AnyHandler.
Context {R : Type} (typemap : TypeMap R) (h : unit → M R).
Context (checker : Checker) (processUndefined : M R).

Lemma nestedCall_withAny (stack : nat) :
  nestedCall (withAny typemap h) checker processUndefined stack =
  nestedCall typemap checker processUndefined stack.
Proof.
  induction stack as [|stack IH]; [reflexivity|].
  apply functional_extensionality. intros type. simpl.
  change (processType (withAny typemap h) checker processUndefined stack type
          = processType typemap checker processUndefined stack type).
  rewrite !processType_unfold. by rewrite IH.
Qed.

Lemma processType_withAny (stack : nat) (type : Ty) :
  processType (withAny typemap h) checker processUndefined stack type =
  processType typemap checker processUndefined stack type.
Proof. rewrite !processType_unfold. by rewrite nestedCall_withAny. Qed.

Lemma pushDeclaration_withAny (stack : nat) d result :
  pushDeclaration (withAny typemap h) checker processUndefined stack d result
  = pushDeclaration typemap checker processUndefined stack d result.
Proof.
  unfold pushDeclaration, handleDeclaration.
  destruct d as [[n|n|[|first ?]] pos]; simpl; try reflexivity;
    destruct (getSymbolAtLocation checker _); try reflexivity;
    by rewrite processType_withAny.
Qed.

Lemma processTypes_withAny (stack : nat) sourceFile config :
  processTypes (withAny typemap h) checker processUndefined stack
    sourceFile config =
  processTypes typemap checker processUndefined stack sourceFile config.
Proof.
  rewrite !processTypes_reached.
  generalize (@nil (Binding R)).
  induction (reached config sourceFile) as [|d ds IH]; intros result.
  - reflexivity.
  - rewrite !foldM_cons, pushDeclaration_withAny. apply bind_ext, IH.
Qed.

End AnyHandler.

(** C8. A handle that passes the [any]/[unknown] test, and none of the tests
    before it, goes to the [unknown] handler.  No handle is ever classified
    as [Any], and the [any] handler has no part in what the engine computes:
    replacing it by any other changes neither a fold nor a run. *)
Theorem any_is_folded_as_unknown {R} (typemap : TypeMap R)
  (checker : Checker) (processUndefined : M R) (stack : nat) (type : Ty) :
  (isAnyOrUnknown checker type = true →
   Forall (λ k, test checker type k = false)
     [TLiteral; TPrimitive; TBasicObject; TRecord; TUnion; TIntersection;
      TTuple; TArray; TStringIndexed; TNumberIndexed; TFunction; TObject;
      TVoid] →
   classify checker type = Some Category.Unknown ∧
   processType typemap checker processUndefined stack type =
     (tell (Classify type);; TypeMap.unknown typemap ())) ∧
  classify checker type ≠ Some Category.Any ∧
  (∀ h : unit → M R,
     processType (withAny typemap h) checker processUndefined stack type =
     processType typemap checker processUndefined stack type) ∧
  (∀ (h : unit → M R) sourceFile config,
     processTypes (withAny typemap h) checker processUndefined stack
       sourceFile config =
     processTypes typemap checker processUndefined stack sourceFile config).
Proof.
  split; [|split; [|split]].
  - intros Hany Hearlier.
    assert (firstMatch checker type = Some TAnyOrUnknown) as Hfirst
      by (by apply (find_first checker type _ [] TAnyOrUnknown Hearlier)).
    split.
    + unfold classify. by rewrite Hfirst.
    + by rewrite processType_unfold, processTypeBody_dispatch, Hfirst.
  - intros Hc. by apply classify_firstMatch in Hc.
  - intros h. apply processType_withAny.
  - intros h sourceFile config. apply processTypes_withAny.
Qed.

(** [any] (handle 9) is folded by the [unknown] handler, also when the
    [any] handler is one that throws. *)
Lemma any_is_folded_as_unknown_witness :
  processType ioTypeMap testChecker undefinedThrows 0 9%positive =
    (tell (Classify 9%positive);; TypeMap.unknown ioTypeMap ()) ∧
  processType (withAny ioTypeMap (λ _, throw TypeError)) testChecker
    undefinedThrows 0 9%positive =
  processType ioTypeMap testChecker undefinedThrows 0 9%positive.
Proof.
  destruct (any_is_folded_as_unknown ioTypeMap testChecker undefinedThrows
              0 9%positive) as (Hunknown & _ & Hany & _).
  split.
  - apply Hunknown; [reflexivity|by repeat constructor].
  - apply Hany.
Defined.

(** ** Number-indexed objects *)

(** C10. For a handle classified as a number-indexed object, the thunk given
    to the [numberIndexObject] handler folds what [getStringIndexType]
    returns.  When the handle has no string index type the thunk folds
    [undefined], whatever its numeric index type is. *)
Theorem number_index_thunk_reads_string_index {R} (typemap : TypeMap R)
  (checker : Checker) (processUndefined : M R) (stack : nat) (type : Ty) :
  classify checker type = Some Category.NumberIndexObject →
  ∃ element : Thunk R,
    processType typemap checker processUndefined stack type =
      (tell (Classify type);; TypeMap.numberIndexObject typemap element) ∧
    (∀ t, getStringIndexType checker type = Some t →
          element () = nestedCall typemap checker processUndefined stack t) ∧
    (getStringIndexType checker type = None →
     element () = processUndefined).
Proof.
  intros Hc. apply classify_firstMatch in Hc; simpl in Hc.
  eexists. split; [|split].
  - by rewrite processType_unfold, processTypeBody_dispatch, Hc.
  - intros t Ht; simpl. by rewrite Ht.
  - intros Ht; simpl. by rewrite Ht.
Qed.

(** [{ [k: number]: string }] (handle 21) has the numeric index type
    [string] and no string index type: its thunk folds [undefined]. *)
Lemma number_index_thunk_reads_string_index_witness :
  getNumberIndexType testChecker 21%positive = Some 1%positive ∧
  ∃ element : Thunk string,
    processType ioTypeMap testChecker undefinedThrows 1 21%positive =
      (tell (Classify 21%positive);;
       TypeMap.numberIndexObject ioTypeMap element) ∧
    element () = undefinedThrows.
Proof.
  split; [reflexivity|].
  destruct (number_index_thunk_reads_string_index ioTypeMap testChecker
              undefinedThrows 1 21%positive eq_refl)
    as (element & Hfold & _ & Hundefined).
  exists element. split; [exact Hfold|]. apply Hundefined. reflexivity.
Defined.

(** ** Flag decomposition *)

Lemma extractBits_sum (p : positive) (bit : N) (lower : list N) :
  foldr N.add 0%N (extractBits p bit lower) =
  (Npos p * bit + foldr N.add 0%N lower)%N.
Proof.
  revert bit lower. induction p as [p IH|p IH|]; intros bit lower; simpl.
  - rewrite IH. simpl. lia.
  - rewrite IH. lia.
  - lia.
Qed.

Lemma extractBits_powers (p : positive) (bit : N) (lower : list N) :
  (∃ i, bit = 2 ^ i)%N →
  Forall (λ f, ∃ i, f = 2 ^ i)%N lower →
  Forall (λ f, ∃ i, f = 2 ^ i)%N (extractBits p bit lower).
Proof.
  revert bit lower. induction p as [p IH|p IH|]; intros bit lower Hbit Hlower;
    simpl.
  - apply IH; [|by constructor].
    destruct Hbit as [i ->]. exists (N.succ i). by rewrite N.pow_succ_r'.
  - apply IH; [|done].
    destruct Hbit as [i ->]. exists (N.succ i). by rewrite N.pow_succ_r'.
  - by constructor.
Qed.

Lemma extractBits_descending (p : positive) (bit : N) (lower : list N) :
  (0 < bit)%N →
  Forall (λ f, f < bit)%N lower →
  StronglySorted (λ a b, b < a)%N lower →
  StronglySorted (λ a b, b < a)%N (extractBits p bit lower).
Proof.
  revert bit lower.
  induction p as [p IH|p IH|]; intros bit lower Hbit Hlower Hsorted; simpl.
  - apply IH; [lia| |by constructor].
    constructor; [lia|]. eapply Forall_impl; [exact Hlower|].
    intros f Hf; simpl in Hf. lia.
  - apply IH; [lia| |done].
    eapply Forall_impl; [exact Hlower|]. intros f Hf; simpl in Hf. lia.
  - by constructor.
Qed.

(** The contract of section 4.1: powers of two, from the highest bit to the
    lowest, whose sum is the mask. *)
Lemma extractFlags_contract (mask : N) :
  Forall (λ f, ∃ i, f = 2 ^ i)%N (extractFlags mask) ∧
  foldr N.add 0%N (extractFlags mask) = mask ∧
  StronglySorted (λ a b, b < a)%N (extractFlags mask).
Proof.
  destruct mask as [|p]; simpl.
  - repeat split; constructor.
  - split; [|split].
    + apply extractBits_powers; [by exists 0%N|constructor].
    + rewrite extractBits_sum. simpl. lia.
    + apply extractBits_descending; [lia|constructor|constructor].
Qed.

(** The expectations of the repository's test of [extractFlags]. *)
Example extractFlags_tests :
  extractFlags 0 = [] ∧ extractFlags 1 = [1%N] ∧
  extractFlags 10 = [8; 2]%N ∧ extractFlags 100 = [64; 32; 4]%N ∧
  extractFlags 67108864 = [67108864%N].
Proof. repeat split. Qed.

(** ** A handle that no test recognises *)

Section Unclassified.
Context {R : Type} (typemap : TypeMap R) (checker : Checker).
Context (processUndefined : M R) (stack : nat).

Lemma processType_unclassified (type : Ty) :
  firstMatch checker type = None →
  processType typemap checker processUndefined stack type =
  Run [Classify type]
      (Throw (Error ("Unknown type with type flags: "
                     +:+ arrayToString (extractFlags (flags checker type))))).
Proof.
  intros Hnone.
  by rewrite processType_unfold, processTypeBody_dispatch, Hnone.
Qed.

(** Such a declaration makes [handleDeclaration] throw, before or while it
    folds the handle. *)
Lemma handleDeclaration_unclassified d pos type :
  declaredType checker d pos = Some type →
  firstMatch checker type = None →
  handleDeclaration typemap checker processUndefined stack d pos =
  match declaredSymbol checker d with
  | Some _ =>
      Run [Classify type]
        (Throw (Error ("Unknown type with type flags: "
                       +:+ arrayToString (extractFlags (flags checker type)))))
  | None => throw TypeError
  end.
Proof.
  intros Htype Hnone. unfold handleDeclaration.
  destruct d as [n|n|[|first ?]]; simpl in *; simplify_eq.
  - destruct (getSymbolAtLocation checker n); [|reflexivity].
    by rewrite processType_unclassified.
  - destruct (getSymbolAtLocation checker n); [|reflexivity].
    by rewrite processType_unclassified.
  - destruct (getSymbolAtLocation checker first); simpl in *; simplify_eq.
    by rewrite processType_unclassified.
Qed.

Lemma pushDeclaration_pair d pos (result : list (Binding R)) :
  pushDeclaration typemap checker processUndefined stack (d, pos) result =
  (handleDeclaration typemap checker processUndefined stack d pos
     ≫= λ b, mret (result ++ [b])).
Proof. reflexivity. Qed.

End Unclassified.

(** C2. When [processTypes] reaches a declaration whose handle passes none of
    the tests, the run throws and returns no sequence at all.  When the
    declarations before it were folded without an exception and the name of
    the declaration resolves, what is thrown is the error whose message ends
    with the flags of that handle, decomposed by [extractFlags] into the
    powers of two that sum to them; the bindings of the earlier declarations
    are lost. *)
Theorem unclassified_declaration_aborts {R} (typemap : TypeMap R)
  (checker : Checker) (processUndefined : M R) (stack : nat)
  (sourceFile : Node) (config : TsToIoConfig)
  (d : Declaration) (pos : Loc) (type : Ty) :
  (d, pos) ∈ reached config sourceFile →
  declaredType checker d pos = Some type →
  firstMatch checker type = None →
  (∃ e, result (processTypes typemap checker processUndefined stack
                  sourceFile config) = Throw e) ∧
  (∀ before after events bindings symbol,
     reached config sourceFile = before ++ (d, pos) :: after →
     foldM (pushDeclaration typemap checker processUndefined stack) before []
       = Run events (Return bindings) →
     declaredSymbol checker d = Some symbol →
     processTypes typemap checker processUndefined stack sourceFile config =
     Run (events ++ [Classify type])
         (Throw (Error ("Unknown type with type flags: "
                        +:+ arrayToString
                              (extractFlags (flags checker type)))))) ∧
  Forall (λ f, ∃ i, f = 2 ^ i)%N (extractFlags (flags checker type)) ∧
  foldr N.add 0%N (extractFlags (flags checker type)) = flags checker type.
Proof.
  intros Hreached Htype Hnone.
  pose proof (handleDeclaration_unclassified typemap checker processUndefined
                stack d pos type Htype Hnone) as Hhandle.
  split; [|split; [|split; apply extractFlags_contract]].
  - apply list_elem_of_split in Hreached as (before & after & Heq).
    rewrite processTypes_reached, Heq, foldM_app.
    destruct (foldM _ before []) as [events [bindings|e]]; [|by exists e].
    rewrite bind_Return, foldM_cons, pushDeclaration_pair, Hhandle.
    destruct (declaredSymbol checker d); eexists; reflexivity.
  - intros before after events bindings symbol Heq Hbefore Hsymbol.
    rewrite processTypes_reached, Heq, foldM_app, Hbefore.
    rewrite bind_Return, foldM_cons, pushDeclaration_pair, Hhandle, Hsymbol.
    reflexivity.
Qed.

(** [type N = <unrecognised>] comes second in the file: the run throws with
    the flags of its handle, and the binding of [Y] is lost. *)
Lemma unclassified_declaration_aborts_witness :
  processTypes ioTypeMap testChecker undefinedThrows 1 failingSource
    processTypesConfig =
  Run [Classify 12%positive; Classify 3%positive; Classify 3%positive;
       Classify 19%positive]
      (Throw (Error "Unknown type with type flags: 131072")).
Proof.
  destruct (unclassified_declaration_aborts ioTypeMap testChecker
              undefinedThrows 1 failingSource processTypesConfig
              (TypeAliasDeclaration 219%positive) 319%positive 19%positive)
    as (_ & Herror & _).
  - apply (list_elem_of_lookup_2 _ 1%nat). reflexivity.
  - reflexivity.
  - reflexivity.
  - exact (Herror [(TypeAliasDeclaration 212%positive, 312%positive)]
             [(TypeAliasDeclaration 217%positive, 317%positive)]
             [Classify 12%positive; Classify 3%positive; Classify 3%positive]
             [("Y", "t.tuple([t.boolean, t.boolean])")] 119%positive
             eq_refl eq_refl eq_refl).
Defined.

(** ** Namespaces *)

Lemma visited_namespace (config : TsToIoConfig) (statements : list Node) :
  visited config (namespace statements) = [].
Proof.
  unfold namespace; simpl.
  by destruct (skipped config DEFAULT_FILE_NAME).
Qed.

Lemma reached_namespace (config : TsToIoConfig)
  (before after statements : list Node) :
  reached config (sourceFileOf (before ++ namespace statements :: after)) =
  reached config (sourceFileOf (before ++ after)).
Proof.
  unfold reached, sourceFileOf; cbn [children].
  rewrite !flat_map_app. do 2 f_equal.
  change (flat_map (visited config) (namespace statements :: after))
    with (visited config (namespace statements)
          ++ flat_map (visited config) after).
  by rewrite visited_namespace.
Qed.

(** C3. The visitor is applied to the children of a module declaration, and
    these are its name and its block: the block is none of the nodes the
    visitor knows, so the statements of a namespace are never reached.  A
    file with a namespace yields what it yields without it; in the file
    [type A = string; namespace N { type Y = [boolean, boolean] };
    type B = 0 | 1] the run returns [A] and [B] only. *)
Theorem namespace_body_is_not_visited {R} (typemap : TypeMap R)
  (checker : Checker) (processUndefined : M R) (stack : nat)
  (config : TsToIoConfig) (before after statements : list Node) :
  processTypes typemap checker processUndefined stack
    (sourceFileOf (before ++ namespace statements :: after)) config =
  processTypes typemap checker processUndefined stack
    (sourceFileOf (before ++ after)) config ∧
  processTypes ioTypeMap testChecker undefinedThrows 1 namespaceSource
    processTypesConfig =
  Run [Classify 1%positive; Classify 14%positive; Classify 6%positive;
       Classify 7%positive]
      (Return [("A", "t.string");
               ("B", "t.union([t.literal(0), t.literal(1)])")]).
Proof.
  split.
  - by rewrite !processTypes_reached, reached_namespace.
  - reflexivity.
Qed.

(** ** Tuples with a rest element *)

(** C5, as the code has it.  For a handle classified as a tuple, whether or
    not it declares a rest element, the [tuple] handler is called with one
    thunk for each type argument of the handle, in order: nothing is
    removed from that list, so the element type of a rest element, which is
    one of the type arguments, is passed like a fixed element.  The fold
    classifies nothing but the handle before the handler is called, and it
    ends as the handler ends: when the handler returns, so does the fold,
    and the visitor appends the binding of the declaration. *)
Theorem tuple_handler_receives_every_type_argument {R}
  (typemap : TypeMap R) (checker : Checker) (processUndefined : M R)
  (stack : nat) (type : Ty) (targs : list Ty) :
  classify checker type = Some Category.Tuple →
  typeArguments checker type = Some targs →
  let elements : list (Thunk R) :=
    map (λ t _, nestedCall typemap checker processUndefined stack t) targs in
  length elements = length targs ∧
  (∀ i t, targs !! i = Some t →
     ∃ thunk, elements !! i = Some thunk ∧
              thunk () = nestedCall typemap checker processUndefined stack t) ∧
  result (processType typemap checker processUndefined stack type) =
    result (TypeMap.tuple typemap elements) ∧
  classified (log (processType typemap checker processUndefined stack type))
    = type :: classified (log (TypeMap.tuple typemap elements)) ∧
  ∀ r,
    result (TypeMap.tuple typemap elements) = Return r →
    ∀ config fileName pos n symbol children res,
      skipped config fileName = false →
      getTypeAtLocation checker pos = type →
      getSymbolAtLocation checker n = Some symbol →
      result (visit typemap checker processUndefined stack config
                (mkNode (Decl (TypeAliasDeclaration n)) fileName pos children)
                res)
      = Return (res ++ [(name checker symbol, r)]).
Proof.
  intros Hc Hargs elements.
  apply classify_firstMatch in Hc; simpl in Hc.
  assert (∃ written,
            classified written = [] ∧
            processType typemap checker processUndefined stack type =
            Run (Classify type :: written
                 ++ log (TypeMap.tuple typemap elements))
                (result (TypeMap.tuple typemap elements)))
    as (written & Hwritten & Hfold).
  { rewrite processType_unfold, processTypeBody_dispatch, Hc; simpl.
    rewrite Hargs. fold elements.
    destruct (hasRestElement checker type).
    - exists [ConsoleWarn rest_warning]. split; reflexivity.
    - exists []. split; reflexivity. }
  split; [apply length_map|].
  split.
  { intros i t Ht. exists (λ _, nestedCall typemap checker processUndefined
                               stack t).
    split; [|done]. subst elements.
    change (map ?f targs) with (f <$> targs).
    by rewrite list_lookup_fmap, Ht. }
  split; [by rewrite Hfold|].
  split.
  { rewrite Hfold; simpl. change (?x :: ?l ++ ?l') with ((x :: l) ++ l').
    rewrite classified_app. simpl. by rewrite Hwritten. }
  intros r Hr config fileName pos n symbol children res Hskip Hpos Hsym.
  simpl. rewrite Hskip, Hsym, Hpos, !result_bind, Hfold; simpl.
  by rewrite Hr.
Qed.

(** [[string, ...number[]]] (handle 20): the handler is given two thunks,
    for [string] and for [number], and the declaration is bound. *)
Lemma tuple_handler_receives_every_type_argument_witness :
  result (processType ioTypeMap testChecker undefinedThrows 1 20%positive) =
    Return "t.tuple([t.string, t.number])" ∧
  classified (log (processType ioTypeMap testChecker undefinedThrows 1
                     20%positive))
    = [20%positive; 1%positive; 2%positive] ∧
  result (processTypes ioTypeMap testChecker undefinedThrows 1
            (mkNode OtherSyntax DEFAULT_FILE_NAME 1%positive
               [typeAlias 20%positive])
            processTypesConfig) =
    Return [("R", "t.tuple([t.string, t.number])")].
Proof.
  destruct (tuple_handler_receives_every_type_argument ioTypeMap testChecker
              undefinedThrows 1 20%positive [1%positive; 2%positive]
              eq_refl eq_refl) as (_ & _ & Hresult & Hlog & Hvisit).
  split; [exact Hresult|]. split; [exact Hlog|].
  pose proof (Hvisit "t.tuple([t.string, t.number])" eq_refl
                processTypesConfig DEFAULT_FILE_NAME 320%positive
                220%positive 120%positive [] [] eq_refl eq_refl eq_refl)
    as Hbound.
  exact Hbound.
Defined.

(** C5 fails as it is stated.  [[string, ...number[]]] (handle 20) declares
    a rest element: its target has [hasRestElement].  The handle itself, a
    type reference, has no such member, so the engine, which reads it
    there, writes no warning; and its type arguments are [string] and
    [number], the second being the element type of the rest element, so
    the handler is given a thunk for it as for a fixed element and the
    validator that is rendered has it as a second element.  Nor does a
    tuple with a rest element make the run complete: handle 30 has an
    element that no test recognises, and the run throws. *)
Lemma tuple_rest_element_is_passed_on :
  target testChecker 20%positive = Some 32%positive ∧
  hasRestElement testChecker 32%positive = true ∧
  hasRestElement testChecker 20%positive = false ∧
  typeArguments testChecker 20%positive = Some [1%positive; 2%positive] ∧
  processType ioTypeMap testChecker undefinedThrows 1 20%positive =
    Run [Classify 20%positive; Classify 1%positive; Classify 2%positive]
        (Return "t.tuple([t.string, t.number])") ∧
  warnings (log (processType ioTypeMap testChecker undefinedThrows 1
                   20%positive)) = [] ∧
  target testChecker 30%positive = Some 32%positive ∧
  processTypes ioTypeMap testChecker undefinedThrows 1
    (sourceFileOf [typeAlias 30%positive]) processTypesConfig =
    Run [Classify 30%positive; Classify 19%positive]
        (Throw (Error "Unknown type with type flags: 131072")).
Proof. repeat split. Qed.

(** ** The partition of the properties *)

Section Partition.
Context {A : Type} (token : A → option bool).

Lemma partition_permutation (l : list A) :
  Forall (λ p, is_Some (token p)) l →
  filter (λ p, token p = Some false) l ++ filter (λ p, token p = Some true) l
  ≡ₚ l.
Proof.
  induction 1 as [|p l [t Ht] _ IH]; [done|].
  rewrite !filter_cons, Ht. destruct t.
  - rewrite decide_False by done. rewrite decide_True by done.
    rewrite <- Permutation_middle. by constructor.
  - rewrite decide_True by done. rewrite decide_False by done.
    simpl. by constructor.
Qed.


End Partition.

Section ObjectFacts.
Context {R : Type} (typemap : TypeMap R) (checker : Checker).

(** What [processObjectType] does: it throws when a property has no value
    declaration, and otherwise calls the handler with the two filtered
    lists. *)
Lemma processObjectType_cases (recur : Ty → M R) (type : Ty) :
  let all := getPropertiesOfType checker type in
  let member (p : Symbol) : ObjectKeyType * Thunk R :=
    (KeyString (name checker p),
     λ _, recur (getTypeOfSymbolAtLocation checker p)) in
  (Exists (λ p, questionToken checker p = None) all →
   processObjectType typemap checker recur type = Run [] (Throw TypeError)) ∧
  (Forall (λ p, is_Some (questionToken checker p)) all →
   processObjectType typemap checker recur type =
   TypeMap.object typemap
     {| properties :=
          map member (filter (λ p, questionToken checker p = Some false) all);
        optionalProperties :=
          map member (filter (λ p, questionToken checker p = Some true) all)
     |}).
Proof.
  intros all member.
  rewrite (processObjectType_dispatch typemap checker (throw TypeError)).
  unfold dispatch. fold all.
  split.
  - intros Hmissing.
    destruct (mapM (questionToken checker) all) as [tokens|] eqn:Htokens;
      [|done].
    exfalso. assert (is_Some (mapM (questionToken checker) all)) as Hsome
      by (by rewrite Htokens).
    apply mapM_is_Some_1 in Hsome.
    apply Exists_exists in Hmissing as (p & Hp & Hnone).
    rewrite Forall_forall in Hsome. destruct (Hsome p Hp) as [t Ht].
    simpl in Ht. congruence.
  - intros Hall.
    destruct (mapM (questionToken checker) all) as [tokens|] eqn:Htokens;
      [done|].
    apply (mapM_is_Some_2 (questionToken checker)) in Hall.
    rewrite Htokens in Hall. by destruct Hall.
Qed.

End ObjectFacts.



(** ** Thunks that are not invoked *)

Section Laziness.
Context {R : Type} (typemap : TypeMap R) (checker : Checker).



End Laziness.



(** By contrast, the handler set of the tests invokes its thunks: the
    self-referential interface exhausts the stack, and the unrecognised
    member of the union makes the fold throw. *)
Example invoked_thunks_are_folded :
  processType ioTypeMap testChecker undefinedThrows 2 23%positive =
    Run [Classify 23%positive; Classify 23%positive; Classify 23%positive]
        (Throw RangeError) ∧
  processType ioTypeMap testChecker undefinedThrows 2 27%positive =
    Run [Classify 27%positive; Classify 1%positive; Classify 19%positive]
        (Throw (Error "Unknown type with type flags: 131072")).
Proof. split; reflexivity. Qed.

(** * Further properties of the engine *)

(** ** The chain as a whole *)

Lemma precedence_NoDup : NoDup precedence.
Proof.
  unfold precedence.
  repeat (apply NoDup_cons; split;
          [rewrite ?elem_of_cons, elem_of_nil; intros H;
           repeat (destruct H as [H|H]; [discriminate H|]); exact H|]).
  apply NoDup_nil_2.
Qed.

(** X1. The chain of [if]s of [processType] takes the branch of the first
    test of the list that the handle passes: when a test passes and the
    tests before it do not, the fold is the call that goes with that test,
    and no test that comes later is the one that decides, whether or not the
    handle passes it too. *)
Theorem first_passing_test_decides {R} (typemap : TypeMap R)
  (checker : Checker) (processUndefined : M R) (stack : nat) (type : Ty)
  (pre post : list Test) (k : Test) :
  precedence = pre ++ k :: post →
  Forall (λ k', test checker type k' = false) pre →
  test checker type k = true →
  firstMatch checker type = Some k ∧
  (∀ k', k' ∈ post → firstMatch checker type ≠ Some k') ∧
  processType typemap checker processUndefined stack type =
    (tell (Classify type);;
     dispatch typemap checker processUndefined
       (nestedCall typemap checker processUndefined stack) type (Some k)).
Proof.
  intros Hsplit Hpre Hk.
  assert (firstMatch checker type = Some k) as Hfirst.
  { unfold firstMatch. rewrite Hsplit. by apply find_first. }
  split; [exact Hfirst|]. split.
  - intros k' Hk' Heq. rewrite Hfirst in Heq. injection Heq as <-.
    pose proof precedence_NoDup as Hnodup. rewrite Hsplit in Hnodup.
    apply NoDup_app in Hnodup as (_ & _ & Hnodup).
    apply NoDup_cons in Hnodup as [Hnotin _]. by apply Hnotin.
  - by rewrite processType_unfold, processTypeBody_dispatch, Hfirst.
Qed.

(** [string[]] (handle 17) passes the array test, and the tests for
    number-indexed objects and for objects that come after it: it is folded
    as an array. *)
Lemma first_passing_test_decides_witness :
  test testChecker 17%positive TNumberIndexed = true ∧
  test testChecker 17%positive TObject = true ∧
  firstMatch testChecker 17%positive = Some TArray ∧
  firstMatch testChecker 17%positive ≠ Some TNumberIndexed ∧
  firstMatch testChecker 17%positive ≠ Some TObject.
Proof.
  destruct (first_passing_test_decides ioTypeMap testChecker undefinedThrows
              1 17%positive
              [TLiteral; TPrimitive; TBasicObject; TRecord; TUnion;
               TIntersection; TTuple]
              [TStringIndexed; TNumberIndexed; TFunction; TObject; TVoid;
               TAnyOrUnknown]
              TArray eq_refl ltac:(by repeat constructor) eq_refl)
    as (Hfirst & Hlater & _).
  split; [reflexivity|]. split; [reflexivity|]. split; [exact Hfirst|].
  split; apply Hlater; rewrite !elem_of_cons; tauto.
Defined.

(** ** Classification failures *)

Lemma classify_None (checker : Checker) (type : Ty) :
  classify checker type = None →
  firstMatch checker type = None ∨
  (firstMatch checker type = Some TPrimitive ∧
   primitiveCategory (typeToString checker type) = None).
Proof.
  unfold classify.
  destruct (firstMatch checker type) as [[]|]; intros H;
    try discriminate H; auto.
Qed.

(** X2. When the classification of a handle fails, [processType] throws an
    [Error] without calling a handler: the fold is the same for every
    handler set and every result type.  The message is
    ["Unknown primitive type"], without the flags, when the handle passed
    the primitive test, and the message with the decomposed flags when it
    passed no test. *)
Theorem classification_failure_calls_no_handler {R} (typemap : TypeMap R)
  (checker : Checker) (processUndefined : M R) (stack : nat) (type : Ty) :
  classify checker type = None →
  let message :=
    match firstMatch checker type with
    | Some _ => "Unknown primitive type"
    | None => "Unknown type with type flags: "
              +:+ arrayToString (extractFlags (flags checker type))
    end in
  processType typemap checker processUndefined stack type =
    Run [Classify type] (Throw (Error message)) ∧
  ∀ R' (typemap' : TypeMap R') (processUndefined' : M R') stack',
    processType typemap' checker processUndefined' stack' type =
    Run [Classify type] (Throw (Error message)).
Proof.
  intros Hc message.
  assert (∀ R' (typemap' : TypeMap R') (processUndefined' : M R') stack',
            processType typemap' checker processUndefined' stack' type =
            Run [Classify type] (Throw (Error message))) as Hall.
  { intros R' typemap' u' stack'. subst message.
    rewrite processType_unfold, processTypeBody_dispatch.
    destruct (classify_None checker type Hc) as [Hnone|[Hprim Htext]].
    - by rewrite Hnone.
    - rewrite Hprim; simpl. by rewrite Htext. }
  split; [apply Hall|exact Hall].
Qed.

(** [bigint] (handle 28) passes none of the tests: every handler set gets
    the error with its flags. *)
Lemma classification_failure_calls_no_handler_witness :
  processType ioTypeMap testChecker undefinedThrows 1 28%positive =
    Run [Classify 28%positive]
        (Throw (Error "Unknown type with type flags: 64")) ∧
  processType namesOnly testChecker undefinedThrows 0 28%positive =
    Run [Classify 28%positive]
        (Throw (Error "Unknown type with type flags: 64")).
Proof.
  destruct (classification_failure_calls_no_handler ioTypeMap testChecker
              undefinedThrows 1 28%positive eq_refl) as [Hfold Hall].
  split; [exact Hfold|]. apply Hall.
Defined.

(** ** Categories without nested structure *)

(** X3. For a handle classified in a category without nested structure
    (a literal, one of the primitives, the empty object, a function, [void],
    [unknown]) no nested call is made: the fold does not depend on the
    stack that is left nor on what a fold of [undefined] would do. *)
Theorem scalar_categories_make_no_nested_call {R} (typemap : TypeMap R)
  (checker : Checker) (processUndefined : M R) (stack : nat)
  (type : Ty) (c : Category) :
  classify checker type = Some c →
  nested c = false →
  ∀ processUndefined' stack',
    processType typemap checker processUndefined' stack' type =
    processType typemap checker processUndefined stack type.
Proof.
  intros Hc Hnested u' stack'.
  pose proof (classify_firstMatch checker type c Hc) as Hfirst.
  rewrite !processType_unfold, !processTypeBody_dispatch.
  destruct c; try discriminate Hnested; simpl in Hfirst;
    try contradiction; by rewrite Hfirst.
Qed.

Lemma scalar_categories_make_no_nested_call_witness :
  processType ioTypeMap testChecker (mret "undefined") 7 3%positive =
  processType ioTypeMap testChecker undefinedThrows 0 3%positive.
Proof.
  exact (scalar_categories_make_no_nested_call ioTypeMap testChecker
           undefinedThrows 0 3%positive Category.Boolean eq_refl eq_refl
           (mret "undefined") 7).
Defined.

(** ** Records *)

(** X4. For a handle classified as a record, [processType] destructures
    [aliasTypeArguments]: when they are [undefined] it throws a [TypeError]
    and the [record] handler is not called; otherwise the handler is given
    two thunks, which fold the first and the second alias argument.  With
    fewer than two arguments the value thunk folds [undefined], with none
    the key thunk does too; arguments after the second are not looked at. *)
Theorem record_thunks_fold_the_alias_arguments {R} (typemap : TypeMap R)
  (checker : Checker) (processUndefined : M R) (stack : nat) (type : Ty) :
  classify checker type = Some Category.Record →
  match aliasTypeArguments checker type with
  | None =>
      processType typemap checker processUndefined stack type =
      Run [Classify type] (Throw TypeError)
  | Some targs =>
      ∃ payload : RecordPayload R,
        processType typemap checker processUndefined stack type =
          (tell (Classify type);; TypeMap.record typemap payload) ∧
        (∀ k v rest, targs = k :: v :: rest →
           key payload () =
             nestedCall typemap checker processUndefined stack k ∧
           value payload () =
             nestedCall typemap checker processUndefined stack v) ∧
        (length targs < 2 → value payload () = processUndefined) ∧
        (targs = [] → key payload () = processUndefined)
  end.
Proof.
  intros Hc. apply classify_firstMatch in Hc; simpl in Hc.
  rewrite processType_unfold, processTypeBody_dispatch, Hc; simpl.
  destruct (aliasTypeArguments checker type) as [targs|]; [|reflexivity].
  eexists. split; [reflexivity|]. simpl. split; [|split].
  - by intros k v rest ->.
  - intros Hlen. destruct targs as [|k [|v rest]]; simpl in *; [done..|lia].
  - by intros ->.
Qed.

(** [Record<string, {x: number, y: number}>] (handle 11), and the same
    alias without its arguments, for which the fold throws. *)
Lemma record_thunks_fold_the_alias_arguments_witness :
  (∃ payload : RecordPayload string,
     processType ioTypeMap testChecker undefinedThrows 2 11%positive =
       (tell (Classify 11%positive);; TypeMap.record ioTypeMap payload) ∧
     key payload () =
       processType ioTypeMap testChecker undefinedThrows 1 1%positive ∧
     value payload () =
       processType ioTypeMap testChecker undefinedThrows 1 10%positive) ∧
  processType ioTypeMap (withoutTypeArguments testChecker) undefinedThrows 2
    11%positive = Run [Classify 11%positive] (Throw TypeError).
Proof.
  split.
  - pose proof (record_thunks_fold_the_alias_arguments ioTypeMap testChecker
                  undefinedThrows 2 11%positive eq_refl) as H.
    simpl in H. destruct H as (payload & Hfold & Hargs & _).
    exists payload. split; [exact Hfold|].
    exact (Hargs 1%positive 10%positive [] eq_refl).
  - exact (record_thunks_fold_the_alias_arguments ioTypeMap
             (withoutTypeArguments testChecker) undefinedThrows 2 11%positive
             eq_refl).
Defined.

(** ** Arrays and string-indexed objects *)

(** X5. The thunk given to the [array] handler folds what
    [getNumberIndexType] returns, the one given to the [stringIndexObject]
    handler what [getStringIndexType] returns, and each accessor's answer
    is folded only when the thunk is invoked: when it is [undefined] the
    thunk folds [undefined], and [processType] itself still calls the
    handler. *)
Theorem index_thunks_fold_their_accessor {R} (typemap : TypeMap R)
  (checker : Checker) (processUndefined : M R) (stack : nat) (type : Ty) :
  (classify checker type = Some Category.Array →
   ∃ element : Thunk R,
     processType typemap checker processUndefined stack type =
       (tell (Classify type);; TypeMap.array typemap element) ∧
     (∀ t, getNumberIndexType checker type = Some t →
           element () = nestedCall typemap checker processUndefined stack t) ∧
     (getNumberIndexType checker type = None →
      element () = processUndefined)) ∧
  (classify checker type = Some Category.StringIndexObject →
   ∃ element : Thunk R,
     processType typemap checker processUndefined stack type =
       (tell (Classify type);; TypeMap.stringIndexObject typemap element) ∧
     (∀ t, getStringIndexType checker type = Some t →
           element () = nestedCall typemap checker processUndefined stack t) ∧
     (getStringIndexType checker type = None →
      element () = processUndefined)).
Proof.
  split; intros Hc; apply classify_firstMatch in Hc; simpl in Hc;
    (eexists; split;
     [by rewrite processType_unfold, processTypeBody_dispatch, Hc|]);
    simpl; split; [intros t Ht| intros Ht| intros t Ht| intros Ht];
    by rewrite Ht.
Qed.

(** [string[]] (handle 17) and [{ [k: string]: number }] (handle 25). *)
Lemma index_thunks_fold_their_accessor_witness :
  (∃ element : Thunk string,
     processType ioTypeMap testChecker undefinedThrows 1 17%positive =
       (tell (Classify 17%positive);; TypeMap.array ioTypeMap element) ∧
     element () =
       processType ioTypeMap testChecker undefinedThrows 0 1%positive) ∧
  (∃ element : Thunk string,
     processType ioTypeMap testChecker undefinedThrows 1 25%positive =
       (tell (Classify 25%positive);;
        TypeMap.stringIndexObject ioTypeMap element) ∧
     element () =
       processType ioTypeMap testChecker undefinedThrows 0 2%positive).
Proof.
  split.
  - destruct (index_thunks_fold_their_accessor ioTypeMap testChecker
                undefinedThrows 1 17%positive) as [Harray _].
    destruct (Harray eq_refl) as (element & Hfold & Hsome & _).
    exists element. split; [exact Hfold|]. exact (Hsome 1%positive eq_refl).
  - destruct (index_thunks_fold_their_accessor ioTypeMap testChecker
                undefinedThrows 1 25%positive) as [_ Hstring].
    destruct (Hstring eq_refl) as (element & Hfold & Hsome & _).
    exists element. split; [exact Hfold|]. exact (Hsome 2%positive eq_refl).
Defined.

(** ** Unions and intersections *)

Lemma lookup_member_thunks {R} (recur : Ty → M R) (members : list Ty)
  (i : nat) (m : Ty) :
  members !! i = Some m →
  ∃ thunk : Thunk R,
    map (λ t (_ : unit), recur t) members !! i = Some thunk ∧
    thunk () = recur m.
Proof.
  intros Hm. exists (λ _, recur m). split; [|reflexivity].
  change (map ?f members) with (f <$> members).
  by rewrite list_lookup_fmap, Hm.
Qed.

(** X6. The [union] and [intersection] handlers are given one thunk for each
    member the checker lists in [types], in the order of that list, nothing
    sorted and nothing removed: there are as many thunks as members, and the
    thunk at a position folds the member at that position. *)
Theorem member_thunks_keep_the_order {R} (typemap : TypeMap R)
  (checker : Checker) (processUndefined : M R) (stack : nat) (type : Ty)
  (c : Category) :
  classify checker type = Some c →
  c = Category.Union ∨ c = Category.Intersection →
  ∃ members : list (Thunk R),
    processType typemap checker processUndefined stack type =
      (tell (Classify type);;
       match c with
       | Category.Union => TypeMap.union typemap members
       | _ => TypeMap.intersection typemap members
       end) ∧
    length members = length (types checker type) ∧
    ∀ i m, types checker type !! i = Some m →
      ∃ thunk, members !! i = Some thunk ∧
               thunk () = nestedCall typemap checker processUndefined stack m.
Proof.
  intros Hc Hcases.
  pose proof (classify_firstMatch checker type c Hc) as Hfirst.
  exists (map (λ t _, nestedCall typemap checker processUndefined stack t)
              (types checker type)).
  split; [|split; [apply length_map|intros i m; apply lookup_member_thunks]].
  rewrite processType_unfold, processTypeBody_dispatch.
  destruct Hcases as [-> | ->]; simpl in Hfirst; by rewrite Hfirst.
Qed.

(** [null | undefined] (handle 13): the checker lists [undefined] first, and
    so does the handler's argument. *)
Lemma member_thunks_keep_the_order_witness :
  types testChecker 13%positive = [5%positive; 4%positive] ∧
  ∃ members : list (Thunk string),
    processType ioTypeMap testChecker undefinedThrows 1 13%positive =
      (tell (Classify 13%positive);; TypeMap.union ioTypeMap members) ∧
    length members = 2%nat ∧
    (∃ thunk, members !! 0%nat = Some thunk ∧
       thunk () =
         processType ioTypeMap testChecker undefinedThrows 0 5%positive) ∧
    (∃ thunk, members !! 1%nat = Some thunk ∧
       thunk () =
         processType ioTypeMap testChecker undefinedThrows 0 4%positive).
Proof.
  split; [reflexivity|].
  destruct (member_thunks_keep_the_order ioTypeMap testChecker
              undefinedThrows 1 13%positive Category.Union eq_refl
              (or_introl eq_refl)) as (members & Hfold & Hlen & Hat).
  exists members. split; [exact Hfold|]. split; [exact Hlen|].
  split; [exact (Hat 0%nat 5%positive eq_refl)
         |exact (Hat 1%nat 4%positive eq_refl)].
Defined.

(** ** Tuples without type arguments, tuples without a rest element *)

(** X7. For a handle classified as a tuple the engine writes its warning
    only when the handle declares a rest element.  When [typeArguments] is
    [undefined] the fold throws a [TypeError] without calling the handler,
    after the warning if there is one; a tuple with no type argument at all
    has the handler called with the empty list. *)
Theorem tuple_edge_cases {R} (typemap : TypeMap R) (checker : Checker)
  (processUndefined : M R) (stack : nat) (type : Ty) :
  classify checker type = Some Category.Tuple →
  (hasRestElement checker type = false →
   ∀ targs, typeArguments checker type = Some targs →
     processType typemap checker processUndefined stack type =
       (tell (Classify type);;
        TypeMap.tuple typemap
          (map (λ t _, nestedCall typemap checker processUndefined stack t)
               targs))) ∧
  (typeArguments checker type = None →
   processType typemap checker processUndefined stack type =
     Run (Classify type ::
          (if hasRestElement checker type then [ConsoleWarn rest_warning]
           else []))
         (Throw TypeError)) ∧
  (hasRestElement checker type = false →
   typeArguments checker type = Some [] →
   processType typemap checker processUndefined stack type =
     (tell (Classify type);; TypeMap.tuple typemap [])).
Proof.
  intros Hc. apply classify_firstMatch in Hc; simpl in Hc.
  rewrite processType_unfold, processTypeBody_dispatch, Hc; simpl.
  split; [|split].
  - intros -> targs ->. by rewrite bind_mret.
  - intros ->. by destruct (hasRestElement checker type).
  - intros -> ->. by rewrite bind_mret.
Qed.

(** [[boolean, boolean]] (handle 12) has no rest element: the log of its
    fold has no warning. *)
Lemma tuple_edge_cases_witness :
  processType ioTypeMap testChecker undefinedThrows 1 12%positive =
    Run [Classify 12%positive; Classify 3%positive; Classify 3%positive]
        (Return "t.tuple([t.boolean, t.boolean])") ∧
  processType ioTypeMap (withoutTypeArguments testChecker) undefinedThrows 1
    32%positive =
    Run [Classify 32%positive; ConsoleWarn rest_warning] (Throw TypeError).
Proof.
  split.
  - destruct (tuple_edge_cases ioTypeMap testChecker undefinedThrows 1
                12%positive eq_refl) as (Hplain & _ & _).
    rewrite (Hplain eq_refl [3%positive; 3%positive] eq_refl). reflexivity.
  - destruct (tuple_edge_cases ioTypeMap (withoutTypeArguments testChecker)
                undefinedThrows 1 32%positive eq_refl) as (_ & Hnone & _).
    exact (Hnone eq_refl).
Defined.

(** * Further properties of the driver *)

Section RunFacts.
Context {R : Type} (typemap : TypeMap R) (checker : Checker).
Context (processUndefined : M R) (stack : nat).

(** A declaration is bound when its name resolves and the fold of its
    handle returns. *)
Lemma handleDeclaration_Return d pos (b : Binding R) :
  result (handleDeclaration typemap checker processUndefined stack d pos)
    = Return b →
  ∃ symbol type,
    declaredSymbol checker d = Some symbol ∧
    declaredType checker d pos = Some type ∧
    b.1 = name checker symbol ∧
    result (processType typemap checker processUndefined stack type)
      = Return b.2.
Proof.
  unfold handleDeclaration, declaredSymbol, declaredType.
  destruct d as [n|n|[|first rest]]; simpl;
    try (intros H; discriminate H);
    (destruct (getSymbolAtLocation checker _) as [symbol|]; simpl;
     [|intros H; discriminate H]);
    rewrite result_bind;
    (destruct (result (processType _ _ _ _ _)) as [r|e] eqn:Hr;
     [|intros H; discriminate H]);
    simpl; intros [= <-]; eexists _, _; repeat split; exact Hr.
Qed.

Lemma foldM_push_Return (l : list (Declaration * Loc))
  (res bs : list (Binding R)) :
  result (foldM (pushDeclaration typemap checker processUndefined stack)
            l res) = Return bs ↔
  ∃ new,
    bs = res ++ new ∧
    Forall2 (λ d b,
               result (handleDeclaration typemap checker processUndefined
                         stack d.1 d.2) = Return b) l new.
Proof.
  revert res bs. induction l as [|[d pos] l IH]; intros res bs.
  - rewrite foldM_nil. simpl. split.
    + intros [= <-]. exists []. rewrite app_nil_r. split; constructor.
    + intros (new & -> & Hnew). inversion Hnew. by rewrite app_nil_r.
  - rewrite foldM_cons, result_bind, pushDeclaration_pair, result_bind.
    destruct (result (handleDeclaration _ _ _ _ d pos)) as [b|e] eqn:Hd.
    + simpl. rewrite IH. split.
      * intros (new & -> & Hnew). exists (b :: new).
        split; [by rewrite <- app_assoc|]. by constructor.
      * intros (new & -> & Hnew).
        inversion Hnew as [|? b' ? new' Hb Hrest]; subst. simpl in Hb.
        rewrite Hd in Hb. injection Hb as <-.
        exists new'. split; [by rewrite <- app_assoc|done].
    + split; [intros H; discriminate H|].
      intros (new & _ & Hnew). inversion Hnew as [|? b' ? new' Hb Hrest].
      subst. simpl in Hb. rewrite Hd in Hb. discriminate Hb.
Qed.

(** Folding declarations onto a sequence is folding them onto the empty
    sequence and appending. *)
Lemma foldM_push_frame (l : list (Declaration * Loc))
  (res : list (Binding R)) :
  foldM (pushDeclaration typemap checker processUndefined stack) l res =
  (foldM (pushDeclaration typemap checker processUndefined stack) l []
     ≫= λ new, mret (res ++ new)).
Proof.
  revert res. induction l as [|[d pos] l IH]; intros res.
  - rewrite !foldM_nil, bind_mret. by rewrite app_nil_r.
  - rewrite !foldM_cons, !pushDeclaration_pair, !bind_assoc.
    apply bind_ext. intros b. rewrite !bind_mret.
    rewrite (IH (res ++ [b])), (IH ([] ++ [b])), bind_assoc.
    apply bind_ext. intros new. rewrite bind_mret.
    by rewrite <- app_assoc.
Qed.

End RunFacts.

(** ** What a run returns *)

(** X8. A run of [processTypes] returns a sequence exactly when the fold of
    every declaration it reaches returns, and the sequence then has one
    binding for each of them, in the order in which they are reached: the
    binding carries the name of the declaration's symbol and the result of
    folding its handle.  A variable statement gives one binding, whatever
    the number of its declarations. *)
Theorem run_returns_one_binding_per_declaration {R} (typemap : TypeMap R)
  (checker : Checker) (processUndefined : M R) (stack : nat)
  (sourceFile : Node) (config : TsToIoConfig) (bs : list (Binding R)) :
  (result (processTypes typemap checker processUndefined stack sourceFile
             config) = Return bs ↔
   Forall2 (λ d b,
              result (handleDeclaration typemap checker processUndefined
                        stack d.1 d.2) = Return b)
     (reached config sourceFile) bs) ∧
  (result (processTypes typemap checker processUndefined stack sourceFile
             config) = Return bs →
   length bs = length (reached config sourceFile) ∧
   Forall2 (λ d b,
              ∃ symbol type,
                declaredSymbol checker d.1 = Some symbol ∧
                declaredType checker d.1 d.2 = Some type ∧
                b.1 = name checker symbol ∧
                result (processType typemap checker processUndefined stack
                          type) = Return b.2)
     (reached config sourceFile) bs).
Proof.
  assert (result (processTypes typemap checker processUndefined stack
                    sourceFile config) = Return bs ↔
          Forall2 (λ d b,
                     result (handleDeclaration typemap checker
                               processUndefined stack d.1 d.2) = Return b)
            (reached config sourceFile) bs) as Hiff.
  { rewrite processTypes_reached, foldM_push_Return. split.
    - by intros (new & -> & Hnew).
    - intros Hall. by exists bs. }
  split; [exact Hiff|]. intros Hreturn. apply Hiff in Hreturn.
  split; [symmetry; by eapply Forall2_length|].
  eapply Forall2_impl; [exact Hreturn|].
  intros [d pos] b Hb. by apply handleDeclaration_Return.
Qed.

(** The four declarations of the test [ts-to-io]. *)
Lemma run_returns_one_binding_per_declaration_witness :
  Forall2 (λ d b,
             ∃ symbol type,
               declaredSymbol testChecker d.1 = Some symbol ∧
               declaredType testChecker d.1 d.2 = Some type ∧
               b.1 = name testChecker symbol ∧
               result (processType ioTypeMap testChecker undefinedThrows 3
                         type) = Return b.2)
    (reached processTypesConfig testSource)
    [("X", "t.record(t.string, t.type({x: t.number, y: t.number}))");
     ("Y", "t.tuple([t.boolean, t.boolean])");
     ("Z", "t.union([t.undefined, t.null])");
     ("B", "t.union([t.literal(0), t.literal(1)])")].
Proof.
  destruct (run_returns_one_binding_per_declaration ioTypeMap testChecker
              undefinedThrows 3 testSource processTypesConfig
              [("X", "t.record(t.string, t.type({x: t.number, y: t.number}))");
               ("Y", "t.tuple([t.boolean, t.boolean])");
               ("Z", "t.union([t.undefined, t.null])");
               ("B", "t.union([t.literal(0), t.literal(1)])")])
    as [_ Hbindings].
  exact (proj2 (Hbindings eq_refl)).
Defined.

(** ** The first exception ends the run *)

(** X9. When the declarations reached so far were folded and the next one
    throws, in the engine or in a handler, [processTypes] throws the same
    exception: the log is that of the declarations before it followed by
    its own, the declarations after it are not folded, and no sequence is
    returned. *)
Theorem first_exception_ends_the_run {R} (typemap : TypeMap R)
  (checker : Checker) (processUndefined : M R) (stack : nat)
  (sourceFile : Node) (config : TsToIoConfig)
  (before after : list (Declaration * Loc)) (d : Declaration * Loc)
  (events l : list Event) (bindings : list (Binding R)) (e : JsError) :
  reached config sourceFile = before ++ d :: after →
  foldM (pushDeclaration typemap checker processUndefined stack) before []
    = Run events (Return bindings) →
  handleDeclaration typemap checker processUndefined stack d.1 d.2
    = Run l (Throw e) →
  processTypes typemap checker processUndefined stack sourceFile config =
  Run (events ++ l) (Throw e).
Proof.
  intros Hsplit Hbefore Hd. destruct d as [d pos]; simpl in Hd.
  rewrite processTypes_reached, Hsplit, foldM_app, Hbefore.
  rewrite bind_Return, foldM_cons, pushDeclaration_pair, Hd.
  reflexivity.
Qed.

(** [type Y = [boolean, boolean]; interface List { next: List };
    type N = <unrecognised>]: the interface exhausts the stack, and the run
    throws a [RangeError], not the error of the declaration after it. *)
Lemma first_exception_ends_the_run_witness :
  processTypes ioTypeMap testChecker undefinedThrows 1
    (sourceFileOf [typeAlias 12%positive; interface 23%positive;
                   typeAlias 19%positive]) processTypesConfig =
  Run [Classify 12%positive; Classify 3%positive; Classify 3%positive;
       Classify 23%positive; Classify 23%positive]
      (Throw RangeError).
Proof.
  exact (first_exception_ends_the_run ioTypeMap testChecker undefinedThrows 1
           (sourceFileOf [typeAlias 12%positive; interface 23%positive;
                          typeAlias 19%positive]) processTypesConfig
           [(TypeAliasDeclaration 212%positive, 312%positive)]
           [(TypeAliasDeclaration 219%positive, 319%positive)]
           (InterfaceDeclaration 223%positive, 323%positive)
           [Classify 12%positive; Classify 3%positive; Classify 3%positive]
           [Classify 23%positive; Classify 23%positive]
           [("Y", "t.tuple([t.boolean, t.boolean])")] RangeError
           eq_refl eq_refl eq_refl).
Defined.

(** ** A name that does not resolve *)

(** X10. When the checker finds no symbol for the name of a declaration, or
    a variable statement has no declaration, [handleDeclaration] throws a
    [TypeError] before the handle is folded: nothing is classified and no
    handler is called, whatever the type of the declaration. *)
Theorem unresolved_name_throws_before_the_fold {R} (typemap : TypeMap R)
  (checker : Checker) (processUndefined : M R) (stack : nat)
  (d : Declaration) (pos : Loc) :
  declaredSymbol checker d = None →
  handleDeclaration typemap checker processUndefined stack d pos =
  Run [] (Throw TypeError).
Proof.
  unfold declaredSymbol, handleDeclaration.
  destruct d as [n|n|[|first rest]]; simpl; intros Hsymbol;
    try reflexivity; by rewrite Hsymbol.
Qed.

(** A type alias whose name is at a location the checker knows no symbol
    for, and whose type no test recognises: the exception is the
    [TypeError], not the error with the flags. *)
Lemma unresolved_name_throws_before_the_fold_witness :
  firstMatch testChecker (getTypeAtLocation testChecker 319%positive) = None ∧
  handleDeclaration ioTypeMap testChecker undefinedThrows 1
    (TypeAliasDeclaration 7%positive) 319%positive =
  Run [] (Throw TypeError).
Proof.
  split; [reflexivity|].
  exact (unresolved_name_throws_before_the_fold ioTypeMap testChecker
           undefinedThrows 1 (TypeAliasDeclaration 7%positive) 319%positive
           eq_refl).
Defined.

(** ** The visitor only appends *)

(** X11. [visit] never removes or changes a binding that is already in
    [result]: visiting a node with a sequence at hand is visiting it with
    the empty sequence and appending what that yields, with the same log and
    the same exceptions.  What it returns therefore starts with the
    sequence it was given. *)
Theorem visit_only_appends {R} (typemap : TypeMap R) (checker : Checker)
  (processUndefined : M R) (stack : nat) (config : TsToIoConfig)
  (node : Node) (res : list (Binding R)) :
  visit typemap checker processUndefined stack config node res =
    (visit typemap checker processUndefined stack config node []
       ≫= λ new, mret (res ++ new)) ∧
  ∀ res',
    result (visit typemap checker processUndefined stack config node res)
      = Return res' →
    res `prefix_of` res'.
Proof.
  assert (visit typemap checker processUndefined stack config node res =
          (visit typemap checker processUndefined stack config node []
             ≫= λ new, mret (res ++ new))) as Hframe.
  { rewrite !visit_visited. apply foldM_push_frame. }
  split; [exact Hframe|]. intros res'. rewrite Hframe, result_bind.
  destruct (result (visit _ _ _ _ _ node [])) as [new|e]; simpl.
  - intros [= <-]. by exists new.
  - intros H; discriminate H.
Qed.

(** Visiting [type Y = [boolean, boolean]] when [("A", "t.string")] was
    already pushed. *)
Lemma visit_only_appends_witness :
  [("A", "t.string")] `prefix_of`
  [("A", "t.string"); ("Y", "t.tuple([t.boolean, t.boolean])")].
Proof.
  destruct (visit_only_appends ioTypeMap testChecker undefinedThrows 1
              processTypesConfig (typeAlias 12%positive)
              [("A", "t.string")]) as [_ Hprefix].
  exact (Hprefix [("A", "t.string");
                  ("Y", "t.tuple([t.boolean, t.boolean])")] eq_refl).
Defined.

(** ** The configuration *)

Lemma visited_ext (config config' : TsToIoConfig) :
  (∀ f, skipped config f = skipped config' f) →
  ∀ node, visited config node = visited config' node.
Proof.
  intros Hskip node.
  induction node as [syntax fileName pos children IH] using Node_nested_ind.
  simpl. rewrite Hskip. destruct (skipped config' fileName); [done|].
  destruct syntax; try reflexivity.
  induction IH as [|c children Hc _ IHchildren]; [done|].
  simpl. by rewrite Hc, IHchildren.
Qed.

(** X12. With the exported [defaultConfig] passed as it is (imports not
    followed, no file name) every node is skipped: the run folds nothing
    and returns the empty sequence, whatever the source.  With the default
    value of the parameter of [processTypes] a node is visited exactly when
    it belongs to the entry file. *)
Theorem default_config_reaches_nothing {R} (typemap : TypeMap R)
  (checker : Checker) (processUndefined : M R) (stack : nat)
  (sourceFile : Node) :
  processTypes typemap checker processUndefined stack sourceFile
    defaultConfig = Run [] (Return []) ∧
  ∀ fileName,
    skipped processTypesConfig fileName = false ↔
    fileName = DEFAULT_FILE_NAME.
Proof.
  split.
  - rewrite processTypes_reached.
    assert (reached defaultConfig sourceFile = []) as ->; [|reflexivity].
    unfold reached.
    induction (children sourceFile) as [|[syntax fileName pos cs] l IH];
      [done|].
    change (visited defaultConfig (mkNode syntax fileName pos cs)
            ++ flat_map (visited defaultConfig) l = []).
    rewrite IH, app_nil_r. reflexivity.
  - intros fileName. unfold skipped; simpl.
    rewrite negb_false_iff, bool_decide_eq_true.
    apply list_elem_of_singleton.
Qed.

(** X13. A run depends on the configuration through [followImports] and,
    when imports are not followed, through the set of the file names:
    [includeHeader] plays no part, nor do the order and the repetitions of
    [fileNames], and when imports are followed [fileNames] plays none
    either. *)
Theorem run_depends_on_the_files_as_a_set {R} (typemap : TypeMap R)
  (checker : Checker) (processUndefined : M R) (stack : nat)
  (sourceFile : Node) (config config' : TsToIoConfig) :
  followImports config = followImports config' →
  (followImports config = false →
   ∀ f, f ∈ fileNames config ↔ f ∈ fileNames config') →
  processTypes typemap checker processUndefined stack sourceFile config =
  processTypes typemap checker processUndefined stack sourceFile config'.
Proof.
  intros Hfollow Hfiles. rewrite !processTypes_reached.
  assert (∀ f, skipped config f = skipped config' f) as Hskip.
  { intros f. unfold skipped. rewrite <- Hfollow.
    destruct (followImports config); [done|]. simpl.
    f_equal. apply bool_decide_ext, Hfiles. reflexivity. }
  assert (reached config sourceFile = reached config' sourceFile) as ->;
    [|reflexivity].
  unfold reached. induction (children sourceFile) as [|c l IH]; [done|].
  simpl. by rewrite IH, (visited_ext config config' Hskip).
Qed.

(** The same files in another order and with a repetition, and the other
    value of [includeHeader]. *)
Lemma run_depends_on_the_files_as_a_set_witness :
  processTypes ioTypeMap testChecker undefinedThrows 3 testSource
    {| followImports := false; includeHeader := false;
       fileNames := ["lib.d.ts"; DEFAULT_FILE_NAME; "lib.d.ts"] |} =
  processTypes ioTypeMap testChecker undefinedThrows 3 testSource
    {| followImports := false; includeHeader := true;
       fileNames := [DEFAULT_FILE_NAME; "lib.d.ts"] |}.
Proof.
  apply run_depends_on_the_files_as_a_set; [reflexivity|].
  intros _ f. simpl. rewrite !elem_of_cons, !elem_of_nil. tauto.
Defined.

(** ** The members of an object *)

(** X14. For a handle classified as an object whose properties all have a
    value declaration, the [object] handler is given as many entries, over
    its two lists, as the checker enumerates properties: each entry carries
    the name of a property and a thunk that folds the type
    [getTypeOfSymbolAtLocation] gives for that property.  A handle without
    properties still goes to the [object] handler, with two empty lists.
    When a property has no value declaration the fold throws a [TypeError]
    and the handler is not called. *)
Theorem object_members_fold_their_declared_type {R} (typemap : TypeMap R)
  (checker : Checker) (processUndefined : M R) (stack : nat) (type : Ty) :
  classify checker type = Some Category.Object →
  (Exists (λ p, questionToken checker p = None)
     (getPropertiesOfType checker type) →
   processType typemap checker processUndefined stack type =
   Run [Classify type] (Throw TypeError)) ∧
  (Forall (λ p, is_Some (questionToken checker p))
     (getPropertiesOfType checker type) →
   ∃ payload : ObjectPayload R,
     processType typemap checker processUndefined stack type =
       (tell (Classify type);; TypeMap.object typemap payload) ∧
     length (properties payload) + length (optionalProperties payload) =
       length (getPropertiesOfType checker type) ∧
     (∀ entry, entry ∈ properties payload ++ optionalProperties payload →
        ∃ p, p ∈ getPropertiesOfType checker type ∧
             entry.1 = KeyString (name checker p) ∧
             entry.2 () =
               nestedCall typemap checker processUndefined stack
                 (getTypeOfSymbolAtLocation checker p)) ∧
     (getPropertiesOfType checker type = [] →
      properties payload = [] ∧ optionalProperties payload = [])).
Proof.
  intros Hc. apply classify_firstMatch in Hc; simpl in Hc.
  destruct (processObjectType_cases typemap checker
              (nestedCall typemap checker processUndefined stack) type)
    as [Hthrows Hcalls].
  assert (processType typemap checker processUndefined stack type =
          (tell (Classify type);;
           processObjectType typemap checker
             (nestedCall typemap checker processUndefined stack) type))
    as Hfold.
  { rewrite processType_unfold, processTypeBody_dispatch, Hc.
    by rewrite (processObjectType_dispatch typemap checker processUndefined). }
  split.
  - intros Hmissing. by rewrite Hfold, (Hthrows Hmissing).
  - intros Hall. eexists. split; [|split; [|split]].
    + by rewrite Hfold, (Hcalls Hall).
    + simpl. rewrite !length_map, <- length_app.
      by apply Permutation_length, partition_permutation.
    + simpl. intros entry Hentry.
      apply elem_of_app in Hentry as [Hentry|Hentry];
        apply list_elem_of_fmap in Hentry as (p & -> & Hp);
        apply list_elem_of_filter in Hp as [_ Hp]; by exists p.
    + simpl. by intros ->.
Qed.

(** [interface Test { foo: string, bar?: number }] (handle 15) has two
    properties, and the handler is given two entries; the fold of
    [Partial<{ foo: string }>] (handle 31) throws. *)
Lemma object_members_fold_their_declared_type_witness :
  (∃ payload : ObjectPayload string,
     processType ioTypeMap testChecker undefinedThrows 2 15%positive =
       (tell (Classify 15%positive);; TypeMap.object ioTypeMap payload) ∧
     length (properties payload) + length (optionalProperties payload)
       = 2%nat) ∧
  processType ioTypeMap testChecker undefinedThrows 2 31%positive =
    Run [Classify 31%positive] (Throw TypeError).
Proof.
  split.
  - destruct (object_members_fold_their_declared_type ioTypeMap testChecker
                undefinedThrows 2 15%positive eq_refl) as [_ Hcalls].
    destruct Hcalls as (payload & Hfold & Hlength & _).
    { repeat constructor; by eexists. }
    exists payload. split; [exact Hfold|exact Hlength].
  - destruct (object_members_fold_their_declared_type ioTypeMap testChecker
                undefinedThrows 2 31%positive eq_refl) as [Hthrows _].
    apply Hthrows. by apply Exists_cons_hd.
Defined.
